(** * ShellCheck CI helpers: [extract_shell_info.py] and [run_shellcheck.py]

    A shallow embedding of the two scripts under
    [.github/scripts/shellcheck/], and the properties their specification
    states about them.

    Conventions of the embedding.
    - A Python [str] is a [string]; a character is an 8-bit code point
      (U+0000..U+00FF).  The two glyphs of the progress messages of
      [run_shellcheck.py] lie outside that range and appear as their UTF-8
      bytes; no function inspects them.
    - A Python [int] is a [Z].
    - A text file is the [str] that [open(path, 'r')] hands to the program
      (decoded, newlines already translated to LF).  The file system is a
      finite map from paths to such texts; a path outside the map is a
      file that does not exist ([os.path.isfile] is false and [open]
      raises [FileNotFoundError]).  Writing never fails.
    - [print] appends one line to the standard output or to the standard
      error, both kept as lists of lines.
    - [sys.exit(n)] ends the run with status [n]; a [main] that returns
      ends it with status 0. *)

From Stdlib Require Import ZArith Ascii String List Lia Bool.
From stdpp Require Import base option list strings pretty gmap sorting.

Local Open Scope Z_scope.

(* stdpp keeps [simpl] from unfolding the concatenation of strings. *)
#[local] Arguments String.append !s1 s2 : simpl nomatch.

(** ** The Python built-ins the scripts use *)

Module Py.

Definition LF : ascii := "010"%char.

(** [str.isspace] on one character, which is also what [str.strip()] and
    the regular expression class [\s] take as white space: TAB, LF, VT,
    FF, CR, FS, GS, RS, US, SPACE, NEL and NBSP. *)
Definition isspace (c : ascii) : bool :=
  let n := N_of_ascii c in
  ((9 <=? n) && (n <=? 13) || (28 <=? n) && (n <=? 32)
   || (n =? 133) || (n =? 160))%N.

(** The class [\d]: the decimal digits. *)
Definition isdigit (c : ascii) : bool :=
  let n := N_of_ascii c in ((48 <=? n) && (n <=? 57))%N.

Definition digit_value (c : ascii) : Z := Z.of_N (N_of_ascii c) - 48.

(** The class [.]: anything but a line feed. *)
Definition isdot (c : ascii) : bool := negb (Ascii.eqb c LF).

(** Truth value of a [str]. *)
Definition truthy (s : string) : bool :=
  match s with EmptyString => false | String _ _ => true end.

Fixpoint lstrip (s : string) : string :=
  match s with
  | EmptyString => EmptyString
  | String c r => if isspace c then lstrip r else s
  end.

Fixpoint rstrip (s : string) : string :=
  match s with
  | EmptyString => EmptyString
  | String c r =>
      let r' := rstrip r in
      if isspace c && negb (truthy r') then EmptyString else String c r'
  end.

(** [s.strip()] *)
Definition strip (s : string) : string := rstrip (lstrip s).

(** [s.startswith(p)] *)
Fixpoint startswith (s p : string) : bool :=
  match p, s with
  | EmptyString, _ => true
  | String a p', String c s' => Ascii.eqb a c && startswith s' p'
  | String _ _, EmptyString => false
  end.

(** [sub in s] *)
Fixpoint contains (s sub : string) : bool :=
  startswith s sub ||
  match s with
  | EmptyString => false
  | String _ r => contains r sub
  end.

(** [s.endswith(p)] *)
Fixpoint endswith (s p : string) : bool :=
  String.eqb s p ||
  match s with
  | EmptyString => false
  | String _ r => endswith r p
  end.

(** [s.split(sep)] for a one-character separator: never the empty list. *)
Fixpoint split (sep : ascii) (s : string) : list string :=
  match s with
  | EmptyString => [EmptyString]
  | String c r =>
      if Ascii.eqb c sep then EmptyString :: split sep r
      else match split sep r with
           | h :: t => String c h :: t
           | [] => [String c EmptyString]
           end
  end.

(** [s.split(sep, 1)] on a string that holds [sep]: the text before the
    first separator and the text after it. *)
Fixpoint split_once (sep : ascii) (s : string) : string * string :=
  match s with
  | EmptyString => (EmptyString, EmptyString)
  | String c r =>
      if Ascii.eqb c sep then (EmptyString, r)
      else let '(a, b) := split_once sep r in (String c a, b)
  end.

(** [sep.join(l)] *)
Fixpoint join (sep : string) (l : list string) : string :=
  match l with
  | [] => EmptyString
  | [x] => x
  | x :: t => x +:+ sep +:+ join sep t
  end.

(** [f.readline()] at the start of a text: up to and including the
    first line feed. *)
Fixpoint readline (s : string) : string :=
  match s with
  | EmptyString => EmptyString
  | String c r =>
      if Ascii.eqb c LF then String c EmptyString else String c (readline r)
  end.

(** [for line in f]: the lines of a text, each with its terminator. *)
Fixpoint lines_go (cur : string) (s : string) : list string :=
  match s with
  | EmptyString =>
      match cur with EmptyString => [] | _ => [String.rev cur] end
  | String c r =>
      if Ascii.eqb c LF then String.rev (String c cur) :: lines_go EmptyString r
      else lines_go (String c cur) r
  end.
Definition file_lines (s : string) : list string := lines_go EmptyString s.

(** [str(n)] for an [int]. *)
Definition str (n : Z) : string := pretty n.

(** The digits of an integer literal as [int()] reads them: decimal
    digits, single underscores allowed between two digits. *)
Fixpoint int_digits (acc : Z) (after_digit : bool) (s : string) : option Z :=
  match s with
  | EmptyString => if after_digit then Some acc else None
  | String c r =>
      if isdigit c then int_digits (10 * acc + digit_value c) true r
      else if Ascii.eqb c "_" && after_digit then
             match r with
             | String d _ => if isdigit d then int_digits acc false r else None
             | EmptyString => None
             end
           else None
  end.

(** The white space that [int()] skips at both ends of its argument: TAB,
    LF, VT, FF, CR and SPACE, and NEL and NBSP, which it reads as spaces;
    not FS, GS, RS, US, on which it raises. *)
Definition isspace_int (c : ascii) : bool :=
  let n := N_of_ascii c in
  ((9 <=? n) && (n <=? 13) || (n =? 32) || (n =? 133) || (n =? 160))%N.

Fixpoint int_lstrip (s : string) : string :=
  match s with
  | EmptyString => EmptyString
  | String c r => if isspace_int c then int_lstrip r else s
  end.

Fixpoint int_rstrip (s : string) : string :=
  match s with
  | EmptyString => EmptyString
  | String c r =>
      let r' := int_rstrip r in
      if isspace_int c && negb (truthy r') then EmptyString else String c r'
  end.

(** [int(s)]: [None] stands for [ValueError].  The interpreter's optional
    cap on the number of digits is left out. *)
Definition int (s : string) : option Z :=
  match int_rstrip (int_lstrip s) with
  | String c r =>
      if Ascii.eqb c "+" then int_digits 0 false r
      else if Ascii.eqb c "-" then Z.opp <$> int_digits 0 false r
      else int_digits 0 false (String c r)
  | EmptyString => None
  end.

End Py.

(** ** Regular expressions, as [re.match] runs them

    A pattern is written in continuation-passing style: each piece takes
    the text still to be read and the rest of the pattern.  A repetition
    is greedy and backtracks, so that the first success is the match that
    [re] reports. *)

Module Re.
Section Matcher.
Context {A : Type}.

Fixpoint after_prefix (p s : string) : option string :=
  match p, s with
  | EmptyString, _ => Some s
  | String a p', String c s' =>
      if Ascii.eqb a c then after_prefix p' s' else None
  | String _ _, EmptyString => None
  end.

(** A literal. *)
Definition lit (p : string) (s : string) (k : string -> option A) : option A :=
  match after_prefix p s with
  | Some r => k r
  | None => None
  end.

(** [cls+]: the continuation gets the text matched and the rest. *)
Fixpoint plus (cls : ascii -> bool) (s : string)
    (k : string -> string -> option A) : option A :=
  match s with
  | EmptyString => None
  | String c r =>
      if cls c then
        match plus cls r (fun m => k (String c m)) with
        | Some x => Some x
        | None => k (String c EmptyString) r
        end
      else None
  end.

(** [cls*] *)
Definition star (cls : ascii -> bool) (s : string)
    (k : string -> string -> option A) : option A :=
  match plus cls s k with
  | Some x => Some x
  | None => k EmptyString s
  end.

(** [(?:p)?] *)
Definition opt (p : string -> (string -> option A) -> option A)
    (s : string) (k : string -> option A) : option A :=
  match p s k with
  | Some x => Some x
  | None => k s
  end.

(** [$]: the end of the text, or the line feed that ends it. *)
Definition eol (s : string) (k : option A) : option A :=
  match s with
  | EmptyString => k
  | String c EmptyString => if Ascii.eqb c Py.LF then k else None
  | _ => None
  end.
End Matcher.
End Re.

(** ** The process and its environment *)

Module Sys.

Record World := mkWorld {
  files : gmap string string;
  stdout : list string;
  stderr : list string
}.

Inductive Result (A : Type) : Type :=
| Ret (a : A)
| Exit (status : Z).
Arguments Ret {A} a.
Arguments Exit {A} status.

Definition M (A : Type) : Type := World -> Result A * World.

Definition ret {A} (a : A) : M A := fun w => (Ret a, w).

Definition bind {A B} (c : M A) (k : A -> M B) : M B :=
  fun w =>
    match c w with
    | (Ret a, w') => k a w'
    | (Exit n, w') => (Exit n, w')
    end.

(** [sys.exit(n)] *)
Definition exit {A} (n : Z) : M A := fun w => (Exit n, w).

(** [print(line)] *)
Definition print (line : string) : M unit :=
  fun w => (Ret tt, mkWorld (files w) (stdout w ++ [line]) (stderr w)).

(** [print(line, file=sys.stderr)] *)
Definition eprint (line : string) : M unit :=
  fun w => (Ret tt, mkWorld (files w) (stdout w) (stderr w ++ [line])).

(** [open(path, 'r')] and [read()]; [None] is [FileNotFoundError]. *)
Definition read_file (path : string) : M (option string) :=
  fun w => (Ret (files w !! path), w).

(** [open(path, 'w')], the writes and the close. *)
Definition write_file (path text : string) : M unit :=
  fun w => (Ret tt, mkWorld (<[path := text]> (files w)) (stdout w) (stderr w)).

Definition get_files : M (gmap string string) :=
  fun w => (Ret (files w), w).

(** [os.path.isfile(path)] *)
Definition isfile (fs : gmap string string) (path : string) : bool :=
  bool_decide (is_Some (fs !! path)).

(** The exit status of the process. *)
Definition exit_status {A} (r : Result A) : Z :=
  match r with
  | Ret _ => 0
  | Exit n => n
  end.

End Sys.

Notation "x <- c ;; k" := (Sys.bind c (fun x => k))
  (at level 100, c at next level, right associativity).
Notation "c ;;; k" := (Sys.bind c (fun _ => k))
  (at level 100, right associativity).

(** ** [extract_shell_info.py] *)

Module ExtractShellInfo.
Import Sys.

(** [is_shell_script(file_path)], as a function of the file system it
    reads. *)
Definition is_shell_script (fs : gmap string string) (file_path : string) : bool :=
  if Py.endswith file_path ".sh" || Py.endswith file_path ".bash" then true
  else
    match fs !! file_path with
    | Some content =>
        let first_line := Py.strip (Py.readline content) in
        Py.startswith first_line "#!"
        && (Py.contains first_line "bash" || Py.contains first_line "sh")
    | None => false
    end.

(** [re.match(r'^diff --git a/(.+) b/(.+)$', line)]: group 1. *)
Definition git_diff_match (line : string) : option string :=
  Re.lit "diff --git a/" line (fun s =>
  Re.plus Py.isdot s (fun g1 s =>
  Re.lit " b/" s (fun s =>
  Re.plus Py.isdot s (fun _ s =>
  Re.eol s (Some g1))))).

(** [,\d+] *)
Definition comma_count {A} (s : string) (k : string -> option A) : option A :=
  Re.lit "," s (fun s => Re.plus Py.isdigit s (fun _ s => k s)).

(** [re.match(r'^@@\s+-\d+(?:,\d+)?\s+\+(\d+)(?:,\d+)?\s+@@', line)]:
    group 1. *)
Definition hunk_match (line : string) : option string :=
  Re.lit "@@" line (fun s =>
  Re.plus Py.isspace s (fun _ s =>
  Re.lit "-" s (fun s =>
  Re.plus Py.isdigit s (fun _ s =>
  Re.opt comma_count s (fun s =>
  Re.plus Py.isspace s (fun _ s =>
  Re.lit "+" s (fun s =>
  Re.plus Py.isdigit s (fun g1 s =>
  Re.opt comma_count s (fun s =>
  Re.plus Py.isspace s (fun _ s =>
  Re.lit "@@" s (fun _ => Some g1))))))))))).

(** The variables of the loop of [parse_diff_file]. *)
Record ParseState := mkParseState {
  current_file : option string;
  current_line_num : Z;
  modified_lines : gmap string (gset Z)
}.

Definition initial_state : ParseState := mkParseState None 0 ∅.

(** Truth value of [current_file]: neither [None] nor empty. *)
Definition file_set (st : ParseState) : option string :=
  match current_file st with
  | Some f => if Py.truthy f then Some f else None
  | None => None
  end.

(** [modified_lines[f].add(n)] on a [defaultdict(set)]. *)
Definition add_line (f : string) (n : Z) (m : gmap string (gset Z))
    : gmap string (gset Z) :=
  <[f := {[n]} ∪ default ∅ (m !! f)]> m.

(** The lines of a diff proper: added, context, deleted, anything else. *)
Definition diff_line (f : string) (st : ParseState) (line : string) : ParseState :=
  if 0 <? current_line_num st then
    if Py.startswith line "+" && negb (Py.startswith line "+++") then
      mkParseState (current_file st) (current_line_num st + 1)
        (add_line f (current_line_num st) (modified_lines st))
    else if Py.startswith line " " then
      mkParseState (current_file st) (current_line_num st + 1) (modified_lines st)
    else st
  else st.

(** One turn of the loop over the lines of the diff. *)
Definition parse_line (st : ParseState) (line : string) : ParseState :=
  match git_diff_match line with
  | Some g1 => mkParseState (Some g1) (current_line_num st) (modified_lines st)
  | None =>
      match hunk_match line, file_set st with
      | Some g1, Some _ =>
          (* [int] of a [\d+] group cannot fail: [hunk_group_int] *)
          match Py.int g1 with
          | Some n => mkParseState (current_file st) n (modified_lines st)
          | None => st
          end
      | _, Some f => diff_line f st line
      | _, None => st
      end
  end.

Definition parse_lines (st : ParseState) (lines : list string) : ParseState :=
  fold_left parse_line lines st.

(** [parse_diff_file] once the file is read. *)
Definition parse_diff (content : string) : gmap string (gset Z) :=
  modified_lines (parse_lines initial_state (Py.split Py.LF content)).

Definition parse_diff_file (diff_file_path : string) : M (gmap string (gset Z)) :=
  r <- read_file diff_file_path ;;
  match r with
  | Some content => ret (parse_diff content)
  | None =>
      eprint ("Error: " +:+ diff_file_path +:+ " not found") ;;;
      ret ∅
  end.

(** [script in modified_lines and modified_lines[script]] *)
Definition has_lines (modified : gmap string (gset Z)) (script : string) : bool :=
  match modified !! script with
  | Some s => bool_decide (s ≠ ∅)
  | None => false
  end.

(** [','.join(map(str, sorted(s)))] *)
Definition lines_str (s : gset Z) : string :=
  Py.join "," (map Py.str (merge_sort Z.le (elements s))).

(** What the loop over [shell_scripts] writes to the map for one script. *)
Definition map_entry (modified : gmap string (gset Z)) (script : string) : string :=
  if has_lines modified script then
    script +:+ ":" +:+ lines_str (default ∅ (modified !! script)) +:+ String Py.LF ""
  else script +:+ ":all" +:+ String Py.LF "".

(** The loop that fills [modified_lines_map.txt]; [written] is the text
    written so far. *)
Fixpoint write_map (modified : gmap string (gset Z)) (scripts : list string)
    (written : string) : M string :=
  match scripts with
  | [] => ret written
  | script :: rest =>
      print ("Extracting modified lines for: " +:+ script) ;;;
      (if has_lines modified script then
         print ("  Modified lines: " +:+ lines_str (default ∅ (modified !! script)))
       else print "  No modified lines found (file might be new or renamed)") ;;;
      write_map modified rest (written +:+ map_entry modified script)
  end.

Fixpoint print_all (lines : list string) : M unit :=
  match lines with
  | [] => ret tt
  | l :: rest => print l ;;; print_all rest
  end.

(** [changed_files]: the stripped, non-blank lines of the changeset. *)
Definition changed_files_of (content : string) : list string :=
  map Py.strip (List.filter (fun line => Py.truthy (Py.strip line)) (Py.file_lines content)).

(** What the loop over [shell_scripts] writes to [shell_scripts.txt]. *)
Definition scripts_text (shell_scripts : list string) : string :=
  Py.join "" (map (fun script => script +:+ String Py.LF "") shell_scripts).

Definition main (argv : list string) : M unit :=
  match argv with
  | [_; changeset_file; diff_file] =>
      r <- read_file changeset_file ;;
      match r with
      | None =>
          eprint ("Error: " +:+ changeset_file +:+ " not found") ;;;
          exit 1
      | Some content =>
          fs <- get_files ;;
          let shell_scripts :=
            List.filter (is_shell_script fs) (changed_files_of content) in
          write_file "shell_scripts.txt" (scripts_text shell_scripts) ;;;
          match shell_scripts with
          | _ :: _ =>
              print ("Found " +:+ Py.str (Z.of_nat (length shell_scripts)) +:+ " shell script(s):") ;;;
              print_all (map (fun script => "  " +:+ script) shell_scripts) ;;;
              print "has_shell_scripts=true" ;;;
              modified <- parse_diff_file diff_file ;;
              text <- write_map modified shell_scripts "" ;;
              write_file "modified_lines_map.txt" text
          | [] =>
              print "No shell scripts found in changeset" ;;;
              print "has_shell_scripts=false" ;;;
              write_file "modified_lines_map.txt" ""
          end
      end
  | _ =>
      eprint "Usage: python3 extract_shell_info.py <changeset_file> <diff_file>" ;;;
      exit 1
  end.

End ExtractShellInfo.

(** ** [run_shellcheck.py] *)

Module RunShellcheck.
Import Sys.

Definition trivial_codes : list string := ["SC1071"].

(** [filter_trivial_issues(shellcheck_output)] *)
Definition filter_trivial_issues (shellcheck_output : string) : list string :=
  fold_left
    (fun filtered_lines line =>
       if Py.truthy (Py.strip line) then
         let is_trivial := existsb (fun code => Py.contains line code) trivial_codes in
         if negb is_trivial then filtered_lines ++ [line] else filtered_lines
       else filtered_lines)
    (Py.split Py.LF shellcheck_output) [].

(** [[int(x.strip()) for x in s.split(',') if x.strip()]]; [None] is the
    [ValueError] of the first token that [int] refuses. *)
Definition line_list (modified_lines_str : string) : option (list Z) :=
  mapM (fun x => Py.int (Py.strip x))
    (List.filter (fun x => Py.truthy (Py.strip x)) (Py.split "," modified_lines_str)).

(** [is_line_modified(file_path, line_num, modified_lines_str)] *)
Definition is_line_modified (file_path : string) (line_num : Z)
    (modified_lines_str : string) : bool :=
  if String.eqb modified_lines_str "all" then true
  else
    match line_list modified_lines_str with
    | Some modified_lines => bool_decide (line_num ∈ modified_lines)
    | None => true
    end.

(** One turn of the loop of [load_modified_lines_map]. *)
Definition load_line (modified_lines_map : gmap string string) (line : string)
    : gmap string string :=
  let line := Py.strip line in
  if Py.contains line ":" then
    let '(file_path, modified_lines) := Py.split_once ":" line in
    <[file_path := modified_lines]> modified_lines_map
  else modified_lines_map.

(** [load_modified_lines_map(map_file)] *)
Definition load_modified_lines_map (map_file : string) : M (gmap string string) :=
  r <- read_file map_file ;;
  match r with
  | Some content => ret (fold_left load_line (Py.file_lines content) ∅)
  | None =>
      eprint ("Warning: " +:+ map_file +:+ " not found") ;;;
      ret ∅
  end.

(** [gcc_format_pattern.match(line)] for
    [re.compile(r'^([^:]+):(\d+):\d+:.*$')]: groups 1 and 2. *)
Definition gcc_format_match (line : string) : option (string * string) :=
  Re.plus (fun c => negb (Ascii.eqb c ":")) line (fun g1 s =>
  Re.lit ":" s (fun s =>
  Re.plus Py.isdigit s (fun g2 s =>
  Re.lit ":" s (fun s =>
  Re.plus Py.isdigit s (fun _ s =>
  Re.lit ":" s (fun s =>
  Re.star Py.isdot s (fun _ s =>
  Re.eol s (Some (g1, g2))))))))).

(** The loop of [main] that keeps the issues on modified lines.  An
    uncaught exception ends the run with status 1. *)
Fixpoint diff_filter (modified_lines_map : gmap string string)
    (filtered_lines diff_filtered_lines : list string) : M (list string) :=
  match filtered_lines with
  | [] => ret diff_filtered_lines
  | line :: rest =>
      if Py.truthy (Py.strip line) then
        match gcc_format_match line with
        | Some (file_path, g2) =>
            match Py.int g2 with
            | Some line_num =>
                let modified_lines_str := default "" (modified_lines_map !! file_path) in
                if Py.truthy modified_lines_str
                   && is_line_modified file_path line_num modified_lines_str
                then
                  print ("  ✓ Issue on modified line " +:+ Py.str line_num +:+ ": " +:+ line) ;;;
                  diff_filter modified_lines_map rest (diff_filtered_lines ++ [line])
                else
                  print ("  ⏭ Skipping issue on unmodified line " +:+ Py.str line_num) ;;;
                  diff_filter modified_lines_map rest diff_filtered_lines
            | None => exit 1
            end
        | None => diff_filter modified_lines_map rest diff_filtered_lines
        end
      else diff_filter modified_lines_map rest diff_filtered_lines
  end.

Section Linter.
(** The external linter: [None] when the [shellcheck] command is not
    installed; otherwise what [shellcheck -f gcc script] prints to its
    standard output and to its standard error. *)
Variable shellcheck : option (gmap string string -> string -> string * string).

(** The loop of [run_shellcheck_on_files]. *)
Fixpoint check_scripts (shell_scripts all_output : list string) : M string :=
  match shell_scripts with
  | [] => ret (Py.join (String Py.LF "") all_output)
  | script :: rest =>
      fs <- get_files ;;
      if Py.truthy script && isfile fs script then
        print ("Checking: " +:+ script) ;;;
        match shellcheck with
        | Some run =>
            let '(out, err) := run fs script in
            check_scripts rest
              (all_output ++ (if Py.truthy out then [out] else [])
                          ++ (if Py.truthy err then [err] else []))
        | None =>
            eprint "Error: shellcheck command not found" ;;;
            ret ""
        end
      else check_scripts rest all_output
  end.

(** [run_shellcheck_on_files(shell_scripts_file)] *)
Definition run_shellcheck_on_files (shell_scripts_file : string) : M string :=
  r <- read_file shell_scripts_file ;;
  match r with
  | Some content =>
      check_scripts
        (map Py.strip
           (List.filter (fun line => Py.truthy (Py.strip line)) (Py.file_lines content)))
        []
  | None =>
      eprint ("Error: " +:+ shell_scripts_file +:+ " not found") ;;;
      ret ""
  end.

Definition main (argv : list string) : M unit :=
  match argv with
  | [_; shell_scripts_file; modified_lines_map_file] =>
      print "Running ShellCheck on modified shell scripts with diff-aware filtering..." ;;;
      raw_output <- run_shellcheck_on_files shell_scripts_file ;;
      write_file "shellcheck_raw.txt" raw_output ;;;
      let filtered_lines := filter_trivial_issues raw_output in
      write_file "shellcheck_filtered.txt" (Py.join (String Py.LF "") filtered_lines) ;;;
      modified_lines_map <- load_modified_lines_map modified_lines_map_file ;;
      diff_filtered_lines <- diff_filter modified_lines_map filtered_lines [] ;;
      write_file "shellcheck_diff_filtered.txt"
        (Py.join (String Py.LF "") diff_filtered_lines) ;;;
      let total_issues := Z.of_nat (length diff_filtered_lines) in
      let exit_code := if 0 <? total_issues then 1 else 0 in
      (if 0 <? total_issues then
         print ("Found " +:+ Py.str total_issues
                +:+ " non-trivial ShellCheck issue(s) on modified lines") ;;;
         write_file "shellcheck_results.txt"
           (Py.join (String Py.LF "") diff_filtered_lines)
       else
         print "No non-trivial ShellCheck issues found on modified lines" ;;;
         write_file "shellcheck_results.txt" "") ;;;
      print ("total_issues=" +:+ Py.str total_issues) ;;;
      print ("exit_code=" +:+ Py.str exit_code)
  | _ =>
      eprint "Usage: python3 run_shellcheck.py <shell_scripts_file> <modified_lines_map_file>" ;;;
      exit 1
  end.
End Linter.

End RunShellcheck.


(** * The vocabulary of the properties *)

(** Every character of [s] passes the test [p]. *)
Fixpoint all_chars (p : ascii -> bool) (s : string) : bool :=
  match s with
  | EmptyString => true
  | String c r => p c && all_chars p r
  end.

(** An added line: [line.startswith('+') and not line.startswith('+++')]. *)
Definition is_added (line : string) : bool :=
  Py.startswith line "+" && negb (Py.startswith line "+++").

(** The modified lines [main] of [extract_shell_info.py] works from: the
    parse of the diff file when it exists, nothing otherwise. *)
Definition diff_of (fs : gmap string string) (diff_file : string)
    : gmap string (gset Z) :=
  match fs !! diff_file with
  | Some content => ExtractShellInfo.parse_diff content
  | None => ∅
  end.

(** The test of [filter_trivial_issues] on one line. *)
Definition keeps (line : string) : bool :=
  Py.truthy (Py.strip line) && negb (Py.contains line "SC1071").

(** A line worth reporting: not blank, and without the code [SC1071]. *)
Definition reportable (line : string) : Prop :=
  Py.strip line <> "" /\ ~ exists a b, line = a +:+ "SC1071" +:+ b.

(** [line] is a finding in GCC format on line [n] of [file_path]. *)
Definition finding_at (line file_path : string) (n : Z) : Prop :=
  exists g, RunShellcheck.gcc_format_match line = Some (file_path, g)
            /\ Py.int g = Some n.

(** The test a finding must pass to reach the diff-filtered output. *)
Definition on_modified_line (m : gmap string string) (line : string) : bool :=
  match RunShellcheck.gcc_format_match line with
  | Some (file_path, g2) =>
      match Py.int g2 with
      | Some line_num =>
          let modified_lines_str := default "" (m !! file_path) in
          Py.truthy modified_lines_str
          && RunShellcheck.is_line_modified file_path line_num modified_lines_str
      | None => false
      end
  | None => false
  end.

(** The map [main] of [run_shellcheck.py] loads, and what loading it
    prints to the standard error. *)
Definition loaded_map (fs : gmap string string) (map_file : string)
    : gmap string string * list string :=
  match fs !! map_file with
  | Some content => (fold_left RunShellcheck.load_line (Py.file_lines content) ∅, [])
  | None => (∅, ["Warning: " +:+ map_file +:+ " not found"])
  end.

(** The last two lines [main] of [run_shellcheck.py] prints for [n] issues. *)
Definition summary (n : nat) : list string :=
  ["total_issues=" +:+ Py.str (Z.of_nat n);
   "exit_code=" +:+ Py.str (if 0 <? Z.of_nat n then 1 else 0)].

(** The number a run of digits stands for, read from the left. *)
Fixpoint digits_value (acc : Z) (s : string) : Z :=
  match s with
  | EmptyString => acc
  | String c r => digits_value (10 * acc + Py.digit_value c) r
  end.

(** A repetition of [cls] cannot go on into [rest]. *)
Definition stops (cls : ascii -> bool) (rest : string) : bool :=
  match rest with
  | EmptyString => true
  | String c _ => negb (cls c)
  end.

(** The optional [,count] of a hunk header. *)
Definition count_text (count : option N) : string :=
  match count with
  | Some n => "," +:+ Py.str (Z.of_N n)
  | None => ""
  end.

(** The characters of a printed [int]. *)
Definition isnumchar (c : ascii) : bool := Py.isdigit c || Ascii.eqb c "-".

(** The characters of a printed list of line numbers. *)
Definition islistchar (c : ascii) : bool := isnumchar c || Ascii.eqb c ",".

Definition nonspace (c : ascii) : bool := negb (Py.isspace c).

Definition noncomma (c : ascii) : bool := negb (Ascii.eqb c ",").

Definition noncolon (c : ascii) : bool := negb (Ascii.eqb c ":").

(** A line as a text file gives it: no line feed but, maybe, the last
    character. *)
Fixpoint lf_only_last (s : string) : bool :=
  match s with
  | EmptyString => true
  | String c r => match r with EmptyString => true | _ => Py.isdot c && lf_only_last r end
  end.

(** A path as [changed_files] holds them: stripped, not empty, on one line. *)
Definition clean_path (s : string) : Prop :=
  Py.strip s = s /\ Py.truthy s = true /\ all_chars Py.isdot s = true.

(** What [modified_lines_map.txt] records for a script. *)
Definition map_value (modified : gmap string (gset Z)) (script : string) : string :=
  if ExtractShellInfo.has_lines modified script
  then ExtractShellInfo.lines_str (default ∅ (modified !! script))
  else "all".

(** What the loop over [shell_scripts] of [extract_shell_info.py] prints. *)
Definition map_progress (modified : gmap string (gset Z)) (scripts : list string)
    : list string :=
  flat_map
    (fun script =>
       ["Extracting modified lines for: " +:+ script;
        if ExtractShellInfo.has_lines modified script
        then "  Modified lines: "
             +:+ ExtractShellInfo.lines_str (default ∅ (modified !! script))
        else "  No modified lines found (file might be new or renamed)"])
    scripts.

(** What [main] of [extract_shell_info.py] prints for its shell scripts. *)
Definition listing (modified : gmap string (gset Z)) (scripts : list string)
    : list string :=
  match scripts with
  | [] => ["No shell scripts found in changeset"; "has_shell_scripts=false"]
  | _ :: _ =>
      ["Found " +:+ Py.str (Z.of_nat (length scripts)) +:+ " shell script(s):"]
      ++ map (fun script => "  " +:+ script) scripts
      ++ ["has_shell_scripts=true"]
      ++ map_progress modified scripts
  end.

(** The first character of a line, if any, is not [c]. *)
Definition head_is_not (c : ascii) (line : string) : bool :=
  match line with
  | EmptyString => true
  | String d _ => negb (Ascii.eqb d c)
  end.

(** The first line [main] of [run_shellcheck.py] prints. *)
Definition banner : string :=
  "Running ShellCheck on modified shell scripts with diff-aware filtering...".

(** The line [main] of [run_shellcheck.py] prints before its summary. *)
Definition verdict_line (n : nat) : string :=
  if 0 <? Z.of_nat n
  then "Found " +:+ Py.str (Z.of_nat n)
       +:+ " non-trivial ShellCheck issue(s) on modified lines"
  else "No non-trivial ShellCheck issues found on modified lines".

(** The scripts [run_shellcheck_on_files] reads from its list. *)
Definition listed_scripts (content : string) : list string :=
  map Py.strip (List.filter (fun line => Py.truthy (Py.strip line)) (Py.file_lines content)).

(** A line of a hunk that is in the new revision of the file: added, or
    left as context. *)
Definition in_new_revision (line : string) : bool :=
  Py.startswith line "+" || Py.startswith line " ".

(** The number of lines of the new revision among [lines]. *)
Definition count_new (lines : list string) : Z :=
  Z.of_nat (length (List.filter in_new_revision lines)).

(** The new-revision line number of the line at index [i] of the body of
    a hunk whose header gives [start] as the first line of the new
    revision: [start] plus the lines of the new revision before it. *)
Definition new_line_number (start : Z) (body : list string) (i : nat) : Z :=
  start + count_new (take i body).

(** A line of the body of a hunk, as the scan takes it: no file header,
    no hunk header, and not a line that starts with [+++]. *)
Definition body_line (line : string) : Prop :=
  ExtractShellInfo.git_diff_match line = None /\
  ExtractShellInfo.hunk_match line = None /\
  Py.startswith line "+++" = false.

(** * Properties *)

(** ** Strings *)

Section StringFacts.

Lemma app_empty_r (s : string) : s +:+ "" = s.
Proof. induction s as [|c s IH]; simpl; congruence. Qed.

Lemma app_assoc_s (a b c : string) : (a +:+ b) +:+ c = a +:+ b +:+ c.
Proof. induction a as [|x a IH]; simpl; congruence. Qed.

Lemma truthy_app_r (a b : string) : Py.truthy b = true -> Py.truthy (a +:+ b) = true.
Proof. destruct a; simpl; auto. Qed.

Lemma truthy_false (s : string) : Py.truthy s = false <-> s = "".
Proof. destruct s; simpl; split; congruence. Qed.

Lemma truthy_true (s : string) : Py.truthy s = true <-> s <> "".
Proof. destruct s; simpl; split; congruence. Qed.

Lemma startswith_spec (s p : string) :
  Py.startswith s p = true <-> exists b, s = p +:+ b.
Proof.
  revert s; induction p as [|a p IH]; intros s; simpl.
  - destruct s; simpl; split; eauto.
  - destruct s as [|c s].
    + split; [discriminate | intros [b Hb]; discriminate].
    + simpl. rewrite andb_true_iff, Ascii.eqb_eq, IH. split.
      * intros [-> [b ->]]. eauto.
      * intros [b Hb]. injection Hb as -> ->. eauto.
Qed.

Lemma contains_nil (sub : string) : Py.contains "" sub = Py.startswith "" sub.
Proof. unfold Py.contains. apply orb_false_r. Qed.

Lemma contains_cons (c : ascii) (s sub : string) :
  Py.contains (String c s) sub = Py.startswith (String c s) sub || Py.contains s sub.
Proof. reflexivity. Qed.

Lemma contains_spec (s sub : string) :
  Py.contains s sub = true <-> exists a b, s = a +:+ sub +:+ b.
Proof.
  induction s as [|c s IH].
  - rewrite contains_nil, startswith_spec. split.
    + intros [b Hb]. exists "", b. exact Hb.
    + intros (a & b & Hab). destruct a; [eauto|discriminate].
  - rewrite contains_cons, orb_true_iff, IH. split.
    + intros [H | (a & b & ->)].
      * apply startswith_spec in H as [b Hb]. exists "", b. exact Hb.
      * exists (String c a), b. reflexivity.
    + intros (a & b & Hab). destruct a as [|x a]; simpl in Hab.
      * left. apply startswith_spec. eauto.
      * right. injection Hab as -> ->. eauto.
Qed.

Lemma lstrip_all_space (s : string) :
  Py.truthy (Py.lstrip s) = false <-> all_chars Py.isspace s = true.
Proof.
  induction s as [|c s IH]; simpl; [tauto|].
  destruct (Py.isspace c); simpl; [exact IH|]. split; discriminate.
Qed.

Lemma rstrip_all_space (s : string) :
  Py.truthy (Py.rstrip s) = false <-> all_chars Py.isspace s = true.
Proof.
  induction s as [|c s IH]; simpl; [tauto|].
  destruct (Py.isspace c); simpl.
  - destruct (Py.truthy (Py.rstrip s)); simpl; [|tauto].
    split; [discriminate|]. intros H. apply IH in H. discriminate.
  - split; discriminate.
Qed.

Lemma lstrip_suffix (s : string) : exists a,
  s = a +:+ Py.lstrip s /\ all_chars Py.isspace a = true.
Proof.
  induction s as [|c s (a & Ha & Hsp)]; simpl.
  - exists "". auto.
  - destruct (Py.isspace c) eqn:Hc.
    + exists (String c a). simpl. rewrite Hc, Hsp. split; [f_equal; exact Ha|reflexivity].
    + exists "". auto.
Qed.

Lemma all_chars_app (p : ascii -> bool) (a b : string) :
  all_chars p (a +:+ b) = all_chars p a && all_chars p b.
Proof. induction a as [|c a IH]; simpl; [reflexivity|]. rewrite IH. apply andb_assoc. Qed.

(** A text is blank, in the sense of [not s.strip()], when all of its
    characters are white space. *)
Lemma strip_blank (s : string) :
  Py.truthy (Py.strip s) = false <-> all_chars Py.isspace s = true.
Proof.
  unfold Py.strip. rewrite rstrip_all_space.
  destruct (lstrip_suffix s) as (a & Ha & Hsp).
  rewrite Ha at 2. rewrite all_chars_app, Hsp. simpl. tauto.
Qed.

Lemma rstrip_app_keep (a : string) (c : ascii) (b : string) :
  Py.isspace c = false ->
  Py.rstrip (a +:+ String c b) = a +:+ String c (Py.rstrip b).
Proof.
  intros Hc. induction a as [|x a IH]; simpl.
  - rewrite Hc. reflexivity.
  - rewrite IH. rewrite truthy_app_r by reflexivity.
    rewrite andb_false_r. reflexivity.
Qed.

Lemma readline_app (a b : string) :
  all_chars Py.isdot a = true ->
  Py.readline (a +:+ b) = a +:+ Py.readline b.
Proof.
  induction a as [|c a IH]; simpl; [reflexivity|].
  unfold Py.isdot at 1. intros [Hc Ha]%andb_true_iff.
  apply negb_true_iff in Hc. rewrite Hc, IH by exact Ha. reflexivity.
Qed.

End StringFacts.

(** ** The pieces of a pattern *)

Section MatcherFacts.
Context {A : Type}.

Lemma after_prefix_spec (p s r : string) :
  Re.after_prefix p s = Some r <-> s = p +:+ r.
Proof.
  revert s; induction p as [|a p IH]; intros s.
  - destruct s; simpl; split; congruence.
  - destruct s as [|c s]; simpl; [split; discriminate|].
    destruct (Ascii.eqb_spec a c) as [->|Hne].
    + rewrite IH. split; congruence.
    + split; [discriminate|]. intros H. injection H as -> _. contradiction.
Qed.

Lemma lit_inv (p s : string) (k : string -> option A) (x : A) :
  Re.lit p s k = Some x -> exists r, s = p +:+ r /\ k r = Some x.
Proof.
  unfold Re.lit. destruct (Re.after_prefix p s) as [r|] eqn:E; [|discriminate].
  apply after_prefix_spec in E. eauto.
Qed.

Lemma plus_inv (cls : ascii -> bool) (s : string)
    (k : string -> string -> option A) (x : A) :
  Re.plus cls s k = Some x ->
  exists m r, s = m +:+ r /\ Py.truthy m = true /\ all_chars cls m = true
              /\ k m r = Some x.
Proof.
  revert k; induction s as [|c s IH]; intros k; simpl; [discriminate|].
  destruct (cls c) eqn:Hc; [|discriminate].
  destruct (Re.plus cls s (fun m => k (String c m))) as [y|] eqn:E.
  - intros [= ->]. apply IH in E as (m & r & -> & _ & Hm & Hk).
    exists (String c m), r. simpl. rewrite Hc, Hm. auto.
  - intros Hk. exists (String c ""), s. simpl. rewrite Hc. auto.
Qed.

Lemma star_inv (cls : ascii -> bool) (s : string)
    (k : string -> string -> option A) (x : A) :
  Re.star cls s k = Some x ->
  exists m r, s = m +:+ r /\ all_chars cls m = true /\ k m r = Some x.
Proof.
  unfold Re.star. destruct (Re.plus cls s k) as [y|] eqn:E.
  - intros [= ->]. apply plus_inv in E as (m & r & ? & _ & ? & ?). eauto.
  - intros Hk. exists "", s. auto.
Qed.

Lemma opt_inv (p : string -> (string -> option A) -> option A) (s : string)
    (k : string -> option A) (x : A) :
  Re.opt p s k = Some x -> p s k = Some x \/ k s = Some x.
Proof. unfold Re.opt. destruct (p s k); [intros [= ->]|]; auto. Qed.

Lemma eol_inv (s : string) (k : option A) (x : A) :
  Re.eol s k = Some x -> k = Some x.
Proof.
  unfold Re.eol. destruct s as [|c [|]]; auto; [|discriminate].
  destruct (Ascii.eqb c Py.LF); [auto|discriminate].
Qed.

End MatcherFacts.

(** Reads a successful match back into the pieces of the text. *)
Ltac match_inv H :=
  repeat first
    [ apply lit_inv in H as (? & ? & H)
    | apply plus_inv in H as (? & ? & ? & ? & ? & H)
    | apply star_inv in H as (? & ? & ? & ? & H)
    | apply eol_inv in H
    | progress unfold ExtractShellInfo.comma_count in H
    | apply opt_inv in H as [H | H] ].

(** ** [int] on the digits a pattern has matched *)

Section IntFacts.

Lemma digit_not_space (c : ascii) : Py.isdigit c = true -> Py.isspace c = false.
Proof. destruct c as [[] [] [] [] [] [] [] []]; vm_compute; congruence. Qed.

Lemma digit_not_sign (c : ascii) :
  Py.isdigit c = true -> Ascii.eqb c "+" = false /\ Ascii.eqb c "-" = false.
Proof. destruct c as [[] [] [] [] [] [] [] []]; vm_compute; intuition congruence. Qed.

Lemma rstrip_digits (g : string) : all_chars Py.isdigit g = true -> Py.rstrip g = g.
Proof.
  induction g as [|c g IH]; simpl; [reflexivity|].
  intros [Hc Hg]%andb_true_iff. rewrite IH, (digit_not_space c) by assumption.
  reflexivity.
Qed.

Lemma digit_not_space_int (c : ascii) :
  Py.isdigit c = true -> Py.isspace_int c = false.
Proof. destruct c as [[] [] [] [] [] [] [] []]; vm_compute; congruence. Qed.

Lemma int_rstrip_digits (g : string) :
  all_chars Py.isdigit g = true -> Py.int_rstrip g = g.
Proof.
  induction g as [|c g IH]; simpl; [reflexivity|].
  intros [Hc Hg]%andb_true_iff. rewrite IH, (digit_not_space_int c) by assumption.
  reflexivity.
Qed.

Lemma int_strip_digits (g : string) :
  all_chars Py.isdigit g = true -> Py.int_rstrip (Py.int_lstrip g) = g.
Proof.
  intros Hg. destruct g as [|c g]; [reflexivity|].
  pose proof Hg as [Hc _]%andb_true_iff. simpl Py.int_lstrip.
  rewrite (digit_not_space_int c Hc). apply int_rstrip_digits, Hg.
Qed.

Lemma strip_digits (g : string) : all_chars Py.isdigit g = true -> Py.strip g = g.
Proof.
  intros Hg. unfold Py.strip. destruct g as [|c g]; [reflexivity|].
  pose proof Hg as [Hc _]%andb_true_iff. simpl Py.lstrip.
  rewrite (digit_not_space c Hc). apply rstrip_digits, Hg.
Qed.

Lemma int_digits_all (g : string) (acc : Z) (b : bool) :
  all_chars Py.isdigit g = true -> Py.truthy g = true \/ b = true ->
  is_Some (Py.int_digits acc b g).
Proof.
  revert acc b; induction g as [|c g IH]; intros acc b; simpl.
  - intros _ [?| ->]; [discriminate|eauto].
  - intros [Hc Hg]%andb_true_iff _. rewrite Hc. apply IH; auto.
Qed.

(** [int] accepts every non-empty run of digits. *)
Lemma int_of_digits (g : string) :
  all_chars Py.isdigit g = true -> Py.truthy g = true -> is_Some (Py.int g).
Proof.
  intros Hg Ht. unfold Py.int. rewrite (int_strip_digits g Hg).
  destruct g as [|c g]; [discriminate|].
  pose proof Hg as [Hc _]%andb_true_iff.
  destruct (digit_not_sign c Hc) as [-> ->].
  apply int_digits_all; auto.
Qed.

(** The line number of a hunk header always converts. *)
Lemma hunk_group_int (line g : string) :
  ExtractShellInfo.hunk_match line = Some g -> is_Some (Py.int g).
Proof.
  unfold ExtractShellInfo.hunk_match. intros H.
  match_inv H; injection H as <-; apply int_of_digits; assumption.
Qed.

(** So does the line number of a finding. *)
Lemma gcc_group_int (line f g : string) :
  RunShellcheck.gcc_format_match line = Some (f, g) -> is_Some (Py.int g).
Proof.
  unfold RunShellcheck.gcc_format_match. intros H.
  match_inv H. injection H as <- <-. apply int_of_digits; assumption.
Qed.

(** A finding is never a blank line. *)
Lemma gcc_match_not_blank (line : string) (r : string * string) :
  RunShellcheck.gcc_format_match line = Some r -> Py.truthy (Py.strip line) = true.
Proof.
  unfold RunShellcheck.gcc_format_match. intros H.
  apply plus_inv in H as (m & rest & -> & _ & _ & H).
  apply lit_inv in H as (rest' & -> & _).
  destruct (Py.truthy _) eqn:E; [reflexivity|].
  apply strip_blank in E. rewrite all_chars_app in E.
  apply andb_true_iff in E as [_ E]. discriminate.
Qed.

End IntFacts.

(** ** Splitting and joining *)

Section SplitFacts.

Lemma split_cons (sep : ascii) (s : string) : exists h t, Py.split sep s = h :: t.
Proof.
  induction s as [|c s (h & t & IH)]; simpl; [eauto|].
  destruct (Ascii.eqb c sep); [eauto|]. rewrite IH. eauto.
Qed.

Lemma split_app (sep : ascii) (a b : string) :
  Py.split sep (a +:+ String sep b) = Py.split sep a ++ Py.split sep b.
Proof.
  induction a as [|c a IH]; simpl.
  - rewrite Ascii.eqb_refl. reflexivity.
  - destruct (Ascii.eqb c sep); rewrite IH; [reflexivity|].
    destruct (split_cons sep a) as (h & t & ->). reflexivity.
Qed.

Lemma split_one (sep : ascii) (s : string) :
  all_chars (fun c => negb (Ascii.eqb c sep)) s = true -> Py.split sep s = [s].
Proof.
  induction s as [|c s IH]; simpl; [reflexivity|].
  intros [Hc Hs]%andb_true_iff. apply negb_true_iff in Hc.
  rewrite Hc, IH by exact Hs. reflexivity.
Qed.

Lemma split_pieces (sep : ascii) (s : string) :
  Forall (fun l => all_chars (fun c => negb (Ascii.eqb c sep)) l = true) (Py.split sep s).
Proof.
  induction s as [|c s IH]; simpl; [repeat constructor|].
  destruct (Ascii.eqb c sep) eqn:Hc; [constructor; [reflexivity|exact IH]|].
  destruct (Py.split sep s) as [|h t]; [repeat constructor; simpl; rewrite Hc; reflexivity|].
  inversion IH as [|? ? Hh Ht]; subst. constructor; [|exact Ht].
  simpl. rewrite Hc, Hh. reflexivity.
Qed.

Lemma join_snoc (l : list string) (acc x : string) :
  acc +:+ Py.join "" (x :: l) = (acc +:+ x) +:+ Py.join "" l.
Proof.
  rewrite app_assoc_s. f_equal. destruct l as [|y l]; simpl.
  - symmetry. apply app_empty_r.
  - reflexivity.
Qed.

End SplitFacts.

(** ** [extract_shell_info.py]: the scan of the diff *)

Section ParseFacts.
Import ExtractShellInfo.

Lemma added_no_header (line : string) :
  Py.startswith line "+" = true ->
  git_diff_match line = None /\ hunk_match line = None.
Proof.
  intros [b ->]%startswith_spec. split; reflexivity.
Qed.

Lemma context_no_header (line : string) :
  Py.startswith line " " = true ->
  git_diff_match line = None /\ hunk_match line = None /\ Py.startswith line "+" = false.
Proof.
  intros [b ->]%startswith_spec. repeat split; reflexivity.
Qed.

Lemma parse_line_added (st : ParseState) (f line : string) :
  file_set st = Some f -> 0 < current_line_num st -> is_added line = true ->
  parse_line st line =
    mkParseState (current_file st) (current_line_num st + 1)
      (add_line f (current_line_num st) (modified_lines st)).
Proof.
  intros Hf Hn Ha. unfold parse_line.
  pose proof Ha as [Hp _]%andb_true_iff.
  destruct (added_no_header line Hp) as [-> ->]. rewrite Hf.
  unfold diff_line. fold (is_added line). rewrite Ha.
  apply Z.ltb_lt in Hn. rewrite Hn. reflexivity.
Qed.

(** A context line moves the counter and nothing else. *)
Lemma parse_line_context (st : ParseState) (line : string) :
  Py.startswith line " " = true ->
  parse_line st line =
    mkParseState (current_file st)
      (if bool_decide (is_Some (file_set st)) && (0 <? current_line_num st)
       then current_line_num st + 1 else current_line_num st)
      (modified_lines st).
Proof.
  intros Hc. unfold parse_line.
  destruct (context_no_header line Hc) as (-> & -> & Hp).
  destruct (file_set st) as [f|]; simpl; [|destruct st; reflexivity].
  unfold diff_line. rewrite Hp, Hc. simpl.
  destruct (0 <? current_line_num st); [reflexivity|destruct st; reflexivity].
Qed.

Lemma lookup_add_line (f g : string) (n k : Z) (m : gmap string (gset Z)) :
  k ∈ default ∅ (add_line f n m !! g) <->
  k ∈ default ∅ (m !! g) \/ (g = f /\ k = n).
Proof.
  unfold add_line. destruct (decide (g = f)) as [->|Hne].
  - rewrite lookup_insert_eq. simpl. rewrite elem_of_union, elem_of_singleton.
    split; [intros [->|?]; auto | intros [?|[_ ->]]; auto].
  - rewrite lookup_insert_ne by congruence.
    split; [auto|]. intros [?|[? _]]; [assumption|contradiction].
Qed.

(** What one line adds to the set of a file. *)
Lemma parse_line_modified (st : ParseState) (line f : string) (n : Z) :
  n ∈ default ∅ (modified_lines (parse_line st line) !! f) <->
  n ∈ default ∅ (modified_lines st !! f) \/
  (is_added line = true /\ file_set st = Some f /\ current_line_num st = n /\ 0 < n).
Proof.
  destruct (is_added line) eqn:Ha.
  - destruct (file_set st) as [g|] eqn:Hg.
    + destruct (Z.ltb_spec 0 (current_line_num st)) as [Hn|Hn].
      * rewrite (parse_line_added st g line Hg Hn Ha). simpl.
        rewrite lookup_add_line. split.
        -- intros [?|[-> ->]]; auto.
        -- intros [?|(_ & [= ->] & <- & _)]; auto.
      * pose proof Ha as [Hp _]%andb_true_iff.
        unfold parse_line. destruct (added_no_header line Hp) as [-> ->].
        rewrite Hg. unfold diff_line.
        apply Z.ltb_ge in Hn. rewrite Hn. apply Z.ltb_ge in Hn.
        split; [auto|]. intros [?|(_ & _ & <- & ?)]; [auto|lia].
    + pose proof Ha as [Hp _]%andb_true_iff.
      unfold parse_line. destruct (added_no_header line Hp) as [-> ->].
      rewrite Hg. split; [auto|]. intros [?|(_ & ? & _)]; [auto|discriminate].
  - assert (modified_lines (parse_line st line) = modified_lines st) as ->.
    { unfold parse_line. destruct (git_diff_match line); [reflexivity|].
      destruct (hunk_match line) as [g|], (file_set st) as [h|]; try reflexivity.
      - destruct (Py.int g); reflexivity.
      - unfold diff_line. fold (is_added line). rewrite Ha.
        destruct (0 <? _), (Py.startswith line " "); reflexivity. }
    split; [auto|]. intros [?|(? & _)]; [auto|discriminate].
Qed.

Lemma parse_lines_modified (lines : list string) (st : ParseState) (f : string) (n : Z) :
  n ∈ default ∅ (modified_lines (parse_lines st lines) !! f) <->
  n ∈ default ∅ (modified_lines st !! f) \/
  exists pre line post,
    lines = pre ++ line :: post /\ is_added line = true /\
    file_set (parse_lines st pre) = Some f /\
    current_line_num (parse_lines st pre) = n /\ 0 < n.
Proof.
  revert st; induction lines as [|l lines IH]; intros st.
  - simpl. split; [auto|]. intros [?|(pre & ? & ? & E & _)]; [auto|].
    destruct pre; discriminate.
  - change (parse_lines st (l :: lines)) with (parse_lines (parse_line st l) lines).
    rewrite IH, parse_line_modified. split.
    + intros [[?|(Ha & Hf & Hn & Hpos)]|(pre & x & post & -> & Ha & Hf & Hn & Hpos)].
      * auto.
      * right. exists [], l, lines. auto.
      * right. exists (l :: pre), x, post. auto.
    + intros [?|(pre & x & post & E & Ha & Hf & Hn & Hpos)]; [auto|].
      destruct pre as [|y pre]; simpl in E; injection E as -> ->.
      * left. right. auto.
      * right. exists pre, x, post. auto.
Qed.

End ParseFacts.

(** C2, as the specification words it, fails: in this diff the context
    line [ ctx] is line 10 of the new revision and the added line is
    line 11; only 11 is reported. *)
Lemma context_line_not_counted :
  let content := "diff --git a/file.sh b/file.sh
@@ -1,3 +10,3 @@
 ctx
+new" in
  ExtractShellInfo.parse_diff content !! "file.sh" = Some {[11]} /\
  10 ∉ default (∅ : gset Z) (ExtractShellInfo.parse_diff content !! "file.sh").
Proof.
  assert (ExtractShellInfo.parse_diff "diff --git a/file.sh b/file.sh
@@ -1,3 +10,3 @@
 ctx
+new" = {["file.sh" := {[11]}]}) as E.
  { apply map_eq. intros k. vm_compute. reflexivity. }
  simpl. rewrite E. rewrite lookup_singleton_eq. simpl. split; [reflexivity|].
  rewrite elem_of_singleton. discriminate.
Qed.

(** C3.  After any diff text [head] that leaves a file [f] current, the
    hunk header [@@ -1,3 +10,3 @@] followed by one added line reports
    line 10 for [f], and nothing else. *)
Theorem hunk_start_numbers_added_line (head added f : string) :
  ExtractShellInfo.file_set
    (ExtractShellInfo.parse_lines ExtractShellInfo.initial_state
       (Py.split Py.LF head)) = Some f ->
  all_chars Py.isdot added = true ->
  Py.startswith added "+" = true ->
  Py.startswith added "+++" = false ->
  let content :=
    head +:+ String Py.LF ("@@ -1,3 +10,3 @@" +:+ String Py.LF added) in
  ExtractShellInfo.parse_diff content
    = ExtractShellInfo.add_line f 10 (ExtractShellInfo.parse_diff head) /\
  exists s, ExtractShellInfo.parse_diff content !! f = Some s /\ 10 ∈ s.
Proof.
  intros Hf Hdot Hplus Hnot content.
  assert (ExtractShellInfo.parse_diff content
    = ExtractShellInfo.add_line f 10 (ExtractShellInfo.parse_diff head)) as E.
  { unfold content, ExtractShellInfo.parse_diff.
    rewrite split_app, split_app.
    rewrite (split_one Py.LF added) by exact Hdot.
    change (Py.split Py.LF "@@ -1,3 +10,3 @@") with ["@@ -1,3 +10,3 @@"].
    unfold ExtractShellInfo.parse_lines. rewrite fold_left_app.
    fold (ExtractShellInfo.parse_lines ExtractShellInfo.initial_state
            (Py.split Py.LF head)).
    set (st := ExtractShellInfo.parse_lines _ _) in *.
    simpl fold_left.
    assert (ExtractShellInfo.parse_line st "@@ -1,3 +10,3 @@"
      = ExtractShellInfo.mkParseState (ExtractShellInfo.current_file st) 10
          (ExtractShellInfo.modified_lines st)) as ->.
    { unfold ExtractShellInfo.parse_line.
      change (ExtractShellInfo.git_diff_match "@@ -1,3 +10,3 @@") with (@None string).
      change (ExtractShellInfo.hunk_match "@@ -1,3 +10,3 @@") with (Some "10").
      rewrite Hf. reflexivity. }
    rewrite (parse_line_added _ f added);
      [reflexivity | exact Hf | reflexivity
      | unfold is_added; rewrite Hplus, Hnot; reflexivity]. }
  split; [exact E|]. rewrite E. unfold ExtractShellInfo.add_line.
  rewrite lookup_insert_eq. eexists. split; [reflexivity|].
  apply elem_of_union_l, elem_of_singleton. reflexivity.
Qed.

Lemma hunk_start_numbers_added_line_witness :
  ExtractShellInfo.parse_diff "diff --git a/file.sh b/file.sh
@@ -1,3 +10,3 @@
+echo hi"
    = ExtractShellInfo.add_line "file.sh" 10
        (ExtractShellInfo.parse_diff "diff --git a/file.sh b/file.sh").
Proof.
  apply (hunk_start_numbers_added_line
           "diff --git a/file.sh b/file.sh" "+echo hi" "file.sh");
    reflexivity.
Defined.

(** ** [extract_shell_info.py]: [main] *)

Section ExtractMainFacts.
Import Sys ExtractShellInfo.

Lemma print_all_spec (lines : list string) (w : World) :
  print_all lines w = (Ret tt, mkWorld (files w) (stdout w ++ lines) (stderr w)).
Proof.
  revert w; induction lines as [|l lines IH]; intros w; simpl.
  - unfold ret. rewrite app_nil_r. destruct w; reflexivity.
  - unfold bind, print. rewrite IH. simpl. rewrite <- app_assoc. reflexivity.
Qed.

Lemma write_map_spec (modified : gmap string (gset Z)) (scripts : list string)
    (written : string) (w : World) :
  exists out,
    write_map modified scripts written w =
      (Ret (written +:+ Py.join "" (map (map_entry modified) scripts)),
       mkWorld (files w) (stdout w ++ out) (stderr w)).
Proof.
  revert written w; induction scripts as [|script scripts IH]; intros written w.
  - exists []. simpl. unfold ret. rewrite app_nil_r, app_empty_r.
    destruct w; reflexivity.
  - cbn [write_map map]. rewrite join_snoc. unfold bind at 1 2. unfold print at 1.
    destruct (has_lines modified script); unfold print at 1;
      match goal with |- context [write_map _ _ _ ?w1] =>
        destruct (IH (written +:+ map_entry modified script) w1) as [out ->]
      end; simpl; rewrite <- !app_assoc; eexists; reflexivity.
Qed.

(** [main] on an existing changeset: it returns, and
    [modified_lines_map.txt] holds one entry per shell script. *)
Lemma extract_main_spec (prog changeset_file diff_file content : string) (w : World) :
  files w !! changeset_file = Some content ->
  let scripts := List.filter (is_shell_script (files w)) (changed_files_of content) in
  let modified :=
    diff_of (<["shell_scripts.txt" := scripts_text scripts]> (files w)) diff_file in
  exists w',
    main [prog; changeset_file; diff_file] w = (Ret tt, w') /\
    files w' !! "modified_lines_map.txt"
      = Some (Py.join "" (map (map_entry modified) scripts)).
Proof.
  intros Hcs scripts modified.
  unfold main, bind at 1, read_file at 1. rewrite Hcs.
  unfold bind at 1, get_files. fold scripts.
  unfold bind at 1, write_file at 1. cbn [files stdout stderr].
  destruct scripts as [|s0 scripts'] eqn:Hs.
  - eexists. split; [reflexivity|]. simpl. apply lookup_insert_eq.
  - rewrite <- Hs. unfold bind at 1, print at 1. cbn [files stdout stderr].
    unfold bind at 1. rewrite print_all_spec. cbn [files stdout stderr].
    unfold bind at 1, print at 1. cbn [files stdout stderr].
    unfold bind at 1, parse_diff_file, bind at 1, read_file. cbn [files stdout stderr].
    fold (diff_of (<["shell_scripts.txt" := scripts_text scripts]> (files w)) diff_file).
    unfold diff_of in modified.
    destruct (<["shell_scripts.txt" := scripts_text scripts]> (files w) !! diff_file)
      as [d|] eqn:Hd.
    + unfold ret at 1. unfold bind at 1.
      match goal with |- context [write_map ?m ?l ?a ?w1] =>
        destruct (write_map_spec m l a w1) as [out ->] end.
      eexists. split; [reflexivity|]. simpl. rewrite lookup_insert_eq.
      subst modified. rewrite Hs in Hd |- *. rewrite Hd. reflexivity.
    + unfold bind at 1, eprint, ret at 1. unfold bind at 1.
      match goal with |- context [write_map ?m ?l ?a ?w1] =>
        destruct (write_map_spec m l a w1) as [out ->] end.
      eexists. split; [reflexivity|]. simpl. rewrite lookup_insert_eq.
      subst modified. rewrite Hs in Hd |- *. rewrite Hd. reflexivity.
Qed.

End ExtractMainFacts.

Lemma join_cons (x : string) (l : list string) :
  Py.join "" (x :: l) = x +:+ Py.join "" l.
Proof. exact (join_snoc l "" x). Qed.

Lemma join_app (a b : list string) :
  Py.join "" (a ++ b) = Py.join "" a +:+ Py.join "" b.
Proof.
  induction a as [|x a IH]; [reflexivity|].
  rewrite <- app_comm_cons, !join_cons, IH, app_assoc_s. reflexivity.
Qed.

(** C6.  A shell script of the changeset with no entry in the parsed diff,
    or with an empty one, gets the line [path:all] in
    [modified_lines_map.txt], between the entries of the scripts before
    it and after it. *)
Theorem script_without_diff_entry_maps_to_all
    (prog changeset_file diff_file content script : string) (w : Sys.World) :
  Sys.files w !! changeset_file = Some content ->
  let scripts :=
    List.filter (ExtractShellInfo.is_shell_script (Sys.files w))
      (ExtractShellInfo.changed_files_of content) in
  let modified :=
    diff_of (<["shell_scripts.txt" := ExtractShellInfo.scripts_text scripts]> (Sys.files w))
      diff_file in
  script ∈ scripts ->
  modified !! script = None \/ modified !! script = Some ∅ ->
  ExtractShellInfo.map_entry modified script = script +:+ ":all" +:+ String Py.LF "" /\
  exists w' before after,
    ExtractShellInfo.main [prog; changeset_file; diff_file] w = (Sys.Ret tt, w') /\
    scripts = before ++ script :: after /\
    Sys.files w' !! "modified_lines_map.txt"
      = Some (Py.join "" (map (ExtractShellInfo.map_entry modified) before)
              +:+ (script +:+ ":all" +:+ String Py.LF "")
              +:+ Py.join "" (map (ExtractShellInfo.map_entry modified) after)).
Proof.
  intros Hcs scripts modified Hin Hno.
  assert (ExtractShellInfo.map_entry modified script
          = script +:+ ":all" +:+ String Py.LF "") as Hentry.
  { unfold ExtractShellInfo.map_entry, ExtractShellInfo.has_lines.
    destruct Hno as [-> | ->]; [reflexivity|].
    rewrite bool_decide_eq_false_2; [reflexivity|]. intros H. apply H. reflexivity. }
  split; [exact Hentry|].
  destruct (extract_main_spec prog changeset_file diff_file content w Hcs)
    as (w' & Hmain & Hfile).
  apply list_elem_of_split in Hin as (before & after & Hsplit).
  exists w', before, after. split; [exact Hmain|]. split; [exact Hsplit|].
  rewrite Hfile. f_equal.
  change (Py.join "" (map (ExtractShellInfo.map_entry modified) scripts)
          = Py.join "" (map (ExtractShellInfo.map_entry modified) before)
            +:+ (script +:+ ":all" +:+ String Py.LF "")
            +:+ Py.join "" (map (ExtractShellInfo.map_entry modified) after)).
  rewrite Hsplit, map_app, join_app, map_cons, join_cons, Hentry. reflexivity.
Qed.

Lemma script_without_diff_entry_maps_to_all_witness :
  exists w',
    ExtractShellInfo.main ["extract_shell_info.py"; "changeset.txt"; "diff.txt"]
      (Sys.mkWorld {["changeset.txt" := "README.md
new.sh
"]} [] []) = (Sys.Ret tt, w') /\
    Sys.files w' !! "modified_lines_map.txt" = Some ("new.sh:all" +:+ String Py.LF "").
Proof.
  destruct (script_without_diff_entry_maps_to_all
              "extract_shell_info.py" "changeset.txt" "diff.txt"
              "README.md
new.sh
" "new.sh" (Sys.mkWorld {["changeset.txt" := "README.md
new.sh
"]} [] []))
    as (_ & w' & before & after & Hmain & Hsplit & Hfile).
  - reflexivity.
  - vm_compute. apply list_elem_of_here.
  - left. reflexivity.
  - exists w'. split; [exact Hmain|].
    assert (before = [] /\ after = []) as [-> ->].
    { vm_compute in Hsplit.
      destruct before as [|? [|? ?]]; [|discriminate|discriminate].
      injection Hsplit as <-. split; reflexivity. }
    exact Hfile.
Defined.

(** C9.  A file whose name has neither extension, which exists, and whose
    first line starts with [#!] and goes on to hold [sh] (hence also
    [bash]) is a shell script. *)
Theorem shebang_file_is_shell_script
    (fs : gmap string string) (file_path mid rest : string) :
  Py.endswith file_path ".sh" = false ->
  Py.endswith file_path ".bash" = false ->
  all_chars Py.isdot mid = true ->
  fs !! file_path = Some ("#!" +:+ mid +:+ "sh" +:+ rest) ->
  ExtractShellInfo.is_shell_script fs file_path = true.
Proof.
  intros Hsh Hbash Hmid Hfile. unfold ExtractShellInfo.is_shell_script.
  rewrite Hsh, Hbash, Hfile. cbn [orb].
  assert (Py.strip (Py.readline ("#!" +:+ mid +:+ "sh" +:+ rest))
          = "#!" +:+ mid +:+ "sh" +:+ Py.rstrip (Py.readline rest)) as ->.
  { change ("#!" +:+ mid +:+ "sh" +:+ rest)
      with (String "#" (String "!" (mid +:+ "sh" +:+ rest))).
    change (Py.readline (String "#" (String "!" (mid +:+ "sh" +:+ rest))))
      with (String "#" (String "!" (Py.readline (mid +:+ "sh" +:+ rest)))).
    rewrite (readline_app mid) by exact Hmid.
    change (Py.readline ("sh" +:+ rest)) with (String "s" (String "h" (Py.readline rest))).
    unfold Py.strip.
    change (Py.lstrip (String "#" ?x)) with (String "#" x).
    change (mid +:+ String "s" (String "h" (Py.readline rest)))
      with (mid +:+ "s" +:+ String "h" (Py.readline rest)).
    rewrite <- (app_assoc_s mid "s").
    change (String "#" (String "!" ((mid +:+ "s") +:+ ?x)))
      with (("#!" +:+ mid +:+ "s") +:+ x).
    rewrite rstrip_app_keep by reflexivity.
    rewrite !app_assoc_s. reflexivity. }
  apply andb_true_iff. split; [apply startswith_spec; eexists; reflexivity|].
  apply orb_true_iff. right. apply contains_spec.
  exists ("#!" +:+ mid), (Py.rstrip (Py.readline rest)).
  rewrite app_assoc_s. reflexivity.
Qed.

Lemma shebang_file_is_shell_script_witness :
  ExtractShellInfo.is_shell_script
    {["bin/deploy" := "#!/usr/bin/env bash
echo hi
"]} "bin/deploy" = true.
Proof.
  apply (shebang_file_is_shell_script _ "bin/deploy" "/usr/bin/env ba" "
echo hi
"); reflexivity.
Defined.

(** ** [run_shellcheck.py]: the two filters *)

Section FilterFacts.
Import RunShellcheck.

Lemma filter_trivial_loop (lines acc : list string) :
  fold_left
    (fun filtered_lines line =>
       if Py.truthy (Py.strip line) then
         let is_trivial := existsb (fun code => Py.contains line code) trivial_codes in
         if negb is_trivial then filtered_lines ++ [line] else filtered_lines
       else filtered_lines)
    lines acc = acc ++ List.filter keeps lines.
Proof.
  revert acc; induction lines as [|l lines IH]; intros acc; simpl fold_left.
  - simpl. rewrite app_nil_r. reflexivity.
  - rewrite IH. unfold keeps at 2. simpl List.filter. simpl existsb.
    rewrite orb_false_r.
    destruct (Py.truthy (Py.strip l)); simpl; [|reflexivity].
    destruct (Py.contains l "SC1071"); simpl; [reflexivity|].
    rewrite <- app_assoc. reflexivity.
Qed.

(** The loop always returns; it keeps the findings on modified lines, in
    order, and touches neither the files nor the standard error. *)
Lemma diff_filter_spec (m : gmap string string) (lines acc : list string) (w : Sys.World) :
  exists out,
    diff_filter m lines acc w =
      (Sys.Ret (acc ++ List.filter (on_modified_line m) lines),
       Sys.mkWorld (Sys.files w) (Sys.stdout w ++ out) (Sys.stderr w)).
Proof.
  revert acc w; induction lines as [|l lines IH]; intros acc w.
  - exists []. simpl. unfold Sys.ret. rewrite !app_nil_r. destruct w; reflexivity.
  - cbn [diff_filter List.filter]. unfold on_modified_line at 1.
    destruct (gcc_format_match l) as [[f g2]|] eqn:Hm.
    + rewrite (gcc_match_not_blank l _ Hm).
      destruct (gcc_group_int l f g2 Hm) as [n ->].
      destruct (Py.truthy (default "" (m !! f)) && _);
        unfold Sys.bind, Sys.print;
        match goal with |- context [diff_filter m lines ?a ?w1] =>
          destruct (IH a w1) as [out ->] end;
        cbn [Sys.files Sys.stdout Sys.stderr];
        rewrite <- !app_assoc; eexists; reflexivity.
    + destruct (IH acc w) as [out Hout].
      exists out. destruct (Py.truthy (Py.strip l)); exact Hout.
Qed.

End FilterFacts.

Lemma keeps_spec (line : string) : keeps line = true <-> reportable line.
Proof.
  unfold keeps, reportable.
  rewrite andb_true_iff, negb_true_iff, truthy_true, <- contains_spec.
  destruct (Py.contains line "SC1071"); intuition congruence.
Qed.

(** C5.  [filter_trivial_issues] returns the lines of the linter output
    that are not blank and do not hold [SC1071], unchanged and in their
    order; every line that holds [SC1071] is dropped, and so is every
    blank line. *)
Theorem filter_trivial_issues_keeps_reportable (shellcheck_output : string) :
  RunShellcheck.filter_trivial_issues shellcheck_output
    = List.filter keeps (Py.split Py.LF shellcheck_output)
  /\ forall line, keeps line = true <-> reportable line.
Proof.
  split; [|exact keeps_spec].
  unfold RunShellcheck.filter_trivial_issues. apply filter_trivial_loop.
Qed.

(** C5, as the specification words it, fails: a line of two spaces is not
    empty and does not hold [SC1071], yet it is dropped. *)
Lemma non_empty_blank_line_dropped :
  let out := "  " +:+ String Py.LF "file.sh:1:1: note: x [SC2148]" in
  In "  " (Py.split Py.LF out) /\
  "  " <> "" /\
  Py.contains "  " "SC1071" = false /\
  ~ In "  " (RunShellcheck.filter_trivial_issues out).
Proof.
  vm_compute. repeat split; auto; try discriminate.
  intros [H|[]]. discriminate.
Qed.

(** ** [run_shellcheck.py]: [is_line_modified] *)

Section StripFacts.

Lemma rstrip_idem (s : string) : Py.rstrip (Py.rstrip s) = Py.rstrip s.
Proof.
  induction s as [|c s IH]; simpl; [reflexivity|].
  destruct (Py.isspace c && negb (Py.truthy (Py.rstrip s))) eqn:E; [reflexivity|].
  simpl. rewrite IH, E. reflexivity.
Qed.

Lemma lstrip_head (s : string) :
  Py.lstrip s = "" \/ exists c r, Py.lstrip s = String c r /\ Py.isspace c = false.
Proof.
  induction s as [|c s IH]; simpl; [auto|].
  destruct (Py.isspace c) eqn:E; [exact IH|eauto].
Qed.

Lemma strip_idem (s : string) : Py.strip (Py.strip s) = Py.strip s.
Proof.
  unfold Py.strip. destruct (lstrip_head s) as [-> | (c & r & -> & Hc)]; [reflexivity|].
  assert (Py.lstrip (Py.rstrip (String c r)) = Py.rstrip (String c r)) as ->.
  { simpl. rewrite Hc. simpl. rewrite Hc. reflexivity. }
  apply rstrip_idem.
Qed.

End StripFacts.

(** C8.  When the list of modified lines has a token that, once stripped
    as [x.strip()] does, is not empty and is refused by [int], every line
    counts as modified. *)
Theorem unparseable_token_assumed_modified
    (file_path : string) (line_num : Z) (modified_lines_str token : string) :
  token ∈ Py.split "," modified_lines_str ->
  Py.strip token <> "" ->
  Py.int (Py.strip token) = None ->
  RunShellcheck.is_line_modified file_path line_num modified_lines_str = true.
Proof.
  intros Hin Hblank Hint. unfold RunShellcheck.is_line_modified.
  destruct (String.eqb modified_lines_str "all"); [reflexivity|].
  assert (RunShellcheck.line_list modified_lines_str = None) as ->; [|reflexivity].
  apply mapM_None, Exists_exists. exists token. split.
  - apply list_elem_of_In, filter_In. split.
    + apply list_elem_of_In, Hin.
    + apply truthy_true, Hblank.
  - exact Hint.
Qed.

Lemma unparseable_token_assumed_modified_witness :
  RunShellcheck.is_line_modified "file.sh" 6 "5,x,7" = true.
Proof.
  apply (unparseable_token_assumed_modified "file.sh" 6 "5,x,7" "x").
  - vm_compute. apply list_elem_of_further, list_elem_of_here.
  - discriminate.
  - reflexivity.
Defined.

(** C8, as the specification words it, fails twice.  In [5,,7] the second
    token is empty, which [int] refuses, yet line 6 is not taken as
    modified: blank tokens are skipped before [int] sees them.  And the
    token made of the separator FS (U+001C) and [5] is refused by [int],
    which does not skip FS, yet [x.strip()] removes FS and the list reads
    as [5]. *)
Lemma empty_token_not_assumed_modified :
  ("5,,7" <> "all" /\
   "" ∈ Py.split "," "5,,7" /\
   Py.int "" = None /\
   RunShellcheck.is_line_modified "file.sh" 6 "5,,7" = false) /\
  (String "028" "5" <> "all" /\
   String "028" "5" ∈ Py.split "," (String "028" "5") /\
   Py.int (String "028" "5") = None /\
   RunShellcheck.is_line_modified "file.sh" 6 (String "028" "5") = false).
Proof.
  split.
  - repeat split; try discriminate; try reflexivity.
    vm_compute. apply list_elem_of_further, list_elem_of_here.
  - repeat split; try discriminate; try reflexivity.
    vm_compute. apply list_elem_of_here.
Qed.

(** ** [run_shellcheck.py]: the findings on modified lines *)

Lemma on_modified_line_finding (m : gmap string string) (line file_path : string) (n : Z) :
  finding_at line file_path n ->
  on_modified_line m line =
    Py.truthy (default "" (m !! file_path))
    && RunShellcheck.is_line_modified file_path n (default "" (m !! file_path)).
Proof. intros (g & Hg & Hn). unfold on_modified_line. rewrite Hg, Hn. reflexivity. Qed.

(** C4.  With [file.sh] mapped to [5,7], a finding on line 6 of [file.sh]
    is left out of the diff-filtered output and a finding on line 5 is
    kept; [is_line_modified] answers [False] for 6 and [True] for 5. *)
Theorem finding_kept_only_on_listed_line
    (m : gmap string string) (filtered_lines : list string) (w : Sys.World)
    (at5 at6 : string) :
  m !! "file.sh" = Some "5,7" ->
  finding_at at6 "file.sh" 6 ->
  finding_at at5 "file.sh" 5 ->
  at5 ∈ filtered_lines ->
  (forall file_path,
     RunShellcheck.is_line_modified file_path 6 "5,7" = false /\
     RunShellcheck.is_line_modified file_path 5 "5,7" = true) /\
  exists diff_filtered_lines w',
    RunShellcheck.diff_filter m filtered_lines [] w = (Sys.Ret diff_filtered_lines, w') /\
    (at6 ∉ diff_filtered_lines) /\ (at5 ∈ diff_filtered_lines).
Proof.
  intros Hm H6 H5 Hin. split; [intros f; split; reflexivity|].
  destruct (diff_filter_spec m filtered_lines [] w) as [out ->].
  eexists _, _. split; [reflexivity|]. simpl app.
  rewrite !list_elem_of_In, !filter_In.
  rewrite (on_modified_line_finding m at6 "file.sh" 6 H6).
  rewrite (on_modified_line_finding m at5 "file.sh" 5 H5).
  rewrite Hm. split.
  - intros [_ H]. discriminate H.
  - split; [apply list_elem_of_In, Hin|reflexivity].
Qed.

Lemma finding_kept_only_on_listed_line_witness :
  exists diff_filtered_lines w',
    RunShellcheck.diff_filter {["file.sh" := "5,7"]}
      ["file.sh:5:1: warning: a [SC2086]"; "file.sh:6:3: note: b [SC2034]"] []
      (Sys.mkWorld ∅ [] []) = (Sys.Ret diff_filtered_lines, w') /\
    ("file.sh:6:3: note: b [SC2034]" ∉ diff_filtered_lines) /\
    "file.sh:5:1: warning: a [SC2086]" ∈ diff_filtered_lines.
Proof.
  apply (finding_kept_only_on_listed_line {["file.sh" := "5,7"]}
           ["file.sh:5:1: warning: a [SC2086]"; "file.sh:6:3: note: b [SC2034]"]
           (Sys.mkWorld ∅ [] [])
           "file.sh:5:1: warning: a [SC2086]" "file.sh:6:3: note: b [SC2034]").
  - reflexivity.
  - exists "6". split; reflexivity.
  - exists "5". split; reflexivity.
  - apply list_elem_of_here.
Defined.

(** C10.  A finding whose file has no entry in the map, or an empty one,
    is left out of the diff-filtered output, and the output is the one the
    loop gives without that finding: it is not counted. *)
Theorem finding_without_map_entry_excluded
    (m : gmap string string) (before after : list string) (w : Sys.World)
    (line file_path : string) (n : Z) :
  finding_at line file_path n ->
  m !! file_path = None \/ m !! file_path = Some "" ->
  exists diff_filtered_lines w' w'',
    RunShellcheck.diff_filter m (before ++ line :: after) [] w
      = (Sys.Ret diff_filtered_lines, w') /\
    (line ∉ diff_filtered_lines) /\
    RunShellcheck.diff_filter m (before ++ after) [] w
      = (Sys.Ret diff_filtered_lines, w'').
Proof.
  intros Hf Hno.
  assert (on_modified_line m line = false) as Hoff.
  { rewrite (on_modified_line_finding m line file_path n Hf).
    destruct Hno as [-> | ->]; reflexivity. }
  destruct (diff_filter_spec m (before ++ line :: after) [] w) as [out ->].
  destruct (diff_filter_spec m (before ++ after) [] w) as [out' ->].
  eexists _, _, _. split; [reflexivity|]. simpl app. split.
  - rewrite list_elem_of_In, filter_In. intros [_ H]. congruence.
  - rewrite !List.filter_app. simpl List.filter. rewrite Hoff. reflexivity.
Qed.

Lemma finding_without_map_entry_excluded_witness :
  exists diff_filtered_lines w' w'',
    RunShellcheck.diff_filter {["file.sh" := "5,7"]}
      ([] ++ ["other.sh:5:1: warning: a [SC2086]"]) [] (Sys.mkWorld ∅ [] [])
      = (Sys.Ret diff_filtered_lines, w') /\
    ("other.sh:5:1: warning: a [SC2086]" ∉ diff_filtered_lines) /\
    RunShellcheck.diff_filter {["file.sh" := "5,7"]} ([] ++ []) [] (Sys.mkWorld ∅ [] [])
      = (Sys.Ret diff_filtered_lines, w'').
Proof.
  apply (finding_without_map_entry_excluded {["file.sh" := "5,7"]} [] []
           (Sys.mkWorld ∅ [] []) "other.sh:5:1: warning: a [SC2086]" "other.sh" 5).
  - exists "5". split; reflexivity.
  - left. reflexivity.
Defined.

(** ** [run_shellcheck.py]: [main] *)

Section RunMainFacts.
Import Sys RunShellcheck.
Variable shellcheck : option (gmap string string -> string -> string * string).

(** Running the linter prints, and leaves the files alone. *)
Lemma check_scripts_spec (scripts all_output : list string) (w : World) :
  exists raw out err,
    check_scripts shellcheck scripts all_output w =
      (Ret raw, mkWorld (files w) (stdout w ++ out) (stderr w ++ err)).
Proof.
  revert all_output w; induction scripts as [|script scripts IH]; intros all_output w.
  - eexists _, [], []. simpl. unfold ret. rewrite !app_nil_r. destruct w; reflexivity.
  - cbn [check_scripts]. unfold bind at 1, get_files.
    destruct (Py.truthy script && isfile (files w) script).
    + unfold bind at 1, print. destruct shellcheck as [run|].
      * destruct (run (files w) script) as [o e].
        match goal with |- context [check_scripts _ _ ?a ?w1] =>
          destruct (IH a w1) as (raw & out & err & ->) end.
        cbn [files stdout stderr]. rewrite <- app_assoc.
        eexists _, _, _. reflexivity.
      * unfold bind, eprint, ret. cbn [files stdout stderr].
        eexists _, _, _. reflexivity.
    + destruct (IH all_output w) as (raw & out & err & ->).
      eexists _, _, _. reflexivity.
Qed.

Lemma run_shellcheck_on_files_spec (shell_scripts_file : string) (w : World) :
  exists raw out err,
    run_shellcheck_on_files shellcheck shell_scripts_file w =
      (Ret raw, mkWorld (files w) (stdout w ++ out) (stderr w ++ err)).
Proof.
  unfold run_shellcheck_on_files, bind at 1, read_file.
  destruct (files w !! shell_scripts_file) as [content|].
  - apply check_scripts_spec.
  - unfold bind, eprint, ret. cbn [files stdout stderr].
    eexists _, [], _. rewrite app_nil_r. reflexivity.
Qed.

Lemma load_modified_lines_map_spec (map_file : string) (w : World) :
  load_modified_lines_map map_file w =
    (Ret (loaded_map (files w) map_file).1,
     mkWorld (files w) (stdout w) (stderr w ++ (loaded_map (files w) map_file).2)).
Proof.
  unfold load_modified_lines_map, loaded_map, bind at 1, read_file.
  destruct (files w !! map_file) as [content|]; simpl.
  - unfold ret. rewrite app_nil_r. destruct w; reflexivity.
  - reflexivity.
Qed.

(** [main] with its two arguments: it returns; the diff-filtered findings
    are those of the linter output that pass both filters, under the map
    loaded once the raw and the filtered outputs are written. *)
Lemma run_main_spec (prog shell_scripts_file map_file : string) (w : World) :
  exists raw out err out' w',
    main shellcheck [prog; shell_scripts_file; map_file] w = (Ret tt, w') /\
    let fs :=
      <["shellcheck_filtered.txt" := Py.join (String Py.LF "") (filter_trivial_issues raw)]>
        (<["shellcheck_raw.txt" := raw]> (files w)) in
    let dfl :=
      List.filter (on_modified_line (loaded_map fs map_file).1) (filter_trivial_issues raw) in
    files w' !! "shellcheck_diff_filtered.txt" = Some (Py.join (String Py.LF "") dfl) /\
    stdout w' = stdout w ++ out ++ out' ++ summary (length dfl) /\
    stderr w' = stderr w ++ err ++ (loaded_map fs map_file).2.
Proof.
  unfold main. unfold bind at 1, print at 1.
  unfold bind at 1.
  match goal with |- context [run_shellcheck_on_files _ _ ?w1] =>
    destruct (run_shellcheck_on_files_spec shell_scripts_file w1)
      as (raw & out & err & ->) end.
  cbn [files stdout stderr].
  unfold bind at 1, write_file at 1. cbn [files stdout stderr].
  unfold bind at 1, write_file at 1. cbn [files stdout stderr].
  unfold bind at 1. rewrite load_modified_lines_map_spec. cbn [files stdout stderr].
  set (fs := <["shellcheck_filtered.txt" := _]> _).
  set (m := (loaded_map fs map_file).1).
  unfold bind at 1.
  match goal with |- context [diff_filter ?m ?l ?a ?w1] =>
    destruct (diff_filter_spec m l a w1) as [out1 ->] end.
  cbn [files stdout stderr app].
  set (dfl := List.filter (on_modified_line m) (filter_trivial_issues raw)).
  unfold bind at 1, write_file at 1. cbn [files stdout stderr].
  exists raw, ("Running ShellCheck on modified shell scripts with diff-aware filtering..." :: out), err.
  destruct (0 <? Z.of_nat (length dfl)) eqn:Hpos.
  - eexists (out1 ++ [_]), _. split; [reflexivity|]. cbn [files stdout stderr].
    split; [|split].
    + rewrite lookup_insert_ne by discriminate. apply lookup_insert_eq.
    + unfold summary. fold fs. fold m. fold dfl. rewrite Hpos, <- !app_assoc.
      reflexivity.
    + rewrite <- app_assoc. reflexivity.
  - eexists (out1 ++ [_]), _. split; [reflexivity|]. cbn [files stdout stderr].
    split; [|split].
    + rewrite lookup_insert_ne by discriminate. apply lookup_insert_eq.
    + unfold summary. fold fs. fold m. fold dfl. rewrite Hpos, <- !app_assoc.
      reflexivity.
    + rewrite <- app_assoc. reflexivity.
Qed.

End RunMainFacts.

(** ** Counting the lines of a written file *)

Section LineCount.

Lemma lines_go_last (x cur : string) :
  all_chars Py.isdot x = true -> Py.truthy x = true \/ Py.truthy cur = true ->
  length (Py.lines_go cur x) = 1%nat.
Proof.
  revert cur; induction x as [|c x IH]; intros cur; simpl.
  - intros _ [?|H]; [discriminate|]. destruct cur; [discriminate|reflexivity].
  - unfold Py.isdot at 1. intros [Hc Hx]%andb_true_iff _.
    apply negb_true_iff in Hc. rewrite Hc. apply IH; auto.
Qed.

Lemma lines_go_line (x cur rest : string) :
  all_chars Py.isdot x = true ->
  length (Py.lines_go cur (x +:+ String Py.LF rest))
    = S (length (Py.lines_go "" rest)).
Proof.
  revert cur; induction x as [|c x IH]; intros cur; simpl.
  - intros _. reflexivity.
  - unfold Py.isdot at 1. intros [Hc Hx]%andb_true_iff.
    apply negb_true_iff in Hc. rewrite Hc. apply IH, Hx.
Qed.

(** A file written as [LF.join(lines)] has as many lines as the list, when
    no line is empty or holds a line feed. *)
Lemma joined_line_count (lines : list string) :
  Forall (fun l => Py.truthy l = true /\ all_chars Py.isdot l = true) lines ->
  length (Py.file_lines (Py.join (String Py.LF "") lines)) = length lines.
Proof.
  unfold Py.file_lines. induction lines as [|x [|y lines] IH]; intros H.
  - reflexivity.
  - inversion H as [|? ? [Ht Hd] _]; subst. simpl Py.join.
    apply lines_go_last; auto.
  - inversion H as [|? ? [Ht Hd] H']; subst.
    change (Py.join (String Py.LF "") (x :: y :: lines))
      with (x +:+ String Py.LF (Py.join (String Py.LF "") (y :: lines))).
    rewrite lines_go_line by exact Hd. rewrite IH by exact H'. reflexivity.
Qed.

Lemma strip_truthy (l : string) : Py.truthy (Py.strip l) = true -> Py.truthy l = true.
Proof. destruct l; [discriminate|reflexivity]. Qed.

Lemma filter_trivial_issues_lines (raw : string) :
  Forall (fun l => Py.truthy l = true /\ all_chars Py.isdot l = true)
    (RunShellcheck.filter_trivial_issues raw).
Proof.
  unfold RunShellcheck.filter_trivial_issues. rewrite filter_trivial_loop. simpl app.
  apply Forall_forall. intros l [Hl Hk]%list_elem_of_In%filter_In. split.
  - apply andb_true_iff in Hk as [Hk _]. apply strip_truthy, Hk.
  - pose proof (split_pieces Py.LF raw) as Hp.
    rewrite Forall_forall in Hp. apply Hp, list_elem_of_In, Hl.
Qed.

End LineCount.

(** C1.  Called with its two arguments, [main] returns (exit status 0)
    after printing [total_issues=n] and then [exit_code=1] when [n > 0],
    [exit_code=0] otherwise, where [n] is the number of diff-filtered
    findings, which is the number of lines of
    [shellcheck_diff_filtered.txt]. *)
Theorem main_prints_count_and_returns
    (shellcheck : option (gmap string string -> string -> string * string))
    (argv : list string) (w : Sys.World) :
  length argv = 3%nat ->
  exists (diff_filtered_lines printed : list string) (w' : Sys.World),
    RunShellcheck.main shellcheck argv w = (Sys.Ret tt, w') /\
    Sys.files w' !! "shellcheck_diff_filtered.txt"
      = Some (Py.join (String Py.LF "") diff_filtered_lines) /\
    length (Py.file_lines (Py.join (String Py.LF "") diff_filtered_lines))
      = length diff_filtered_lines /\
    Sys.stdout w' =
      printed ++
      ["total_issues=" +:+ Py.str (Z.of_nat (length diff_filtered_lines));
       if bool_decide (0 < length diff_filtered_lines)%nat
       then "exit_code=1" else "exit_code=0"] /\
    Sys.exit_status (RunShellcheck.main shellcheck argv w).1 = 0.
Proof.
  intros Hlen.
  destruct argv as [|prog [|shell_scripts_file [|map_file [|]]]]; try discriminate.
  destruct (run_main_spec shellcheck prog shell_scripts_file map_file w)
    as (raw & out & err & out' & w' & Hmain & Hfile & Hout & _).
  set (dfl := List.filter _ (RunShellcheck.filter_trivial_issues raw)) in *.
  exists dfl, (Sys.stdout w ++ out ++ out'), w'.
  split; [exact Hmain|]. split; [exact Hfile|]. split; [|split].
  - apply joined_line_count. apply Forall_forall.
    intros l [Hl _]%list_elem_of_In%filter_In.
    pose proof (filter_trivial_issues_lines raw) as Hp.
    rewrite Forall_forall in Hp. apply Hp, list_elem_of_In, Hl.
  - rewrite Hout, <- !app_assoc. unfold summary. do 4 f_equal.
    destruct dfl; reflexivity.
  - rewrite Hmain. reflexivity.
Qed.

Lemma main_prints_count_and_returns_witness :
  exists (w' : Sys.World),
    RunShellcheck.main
      (Some (fun _ _ => ("file.sh:5:1: warning: a [SC2086]" +:+ String Py.LF "", "")))
      ["run_shellcheck.py"; "shell_scripts.txt"; "modified_lines_map.txt"]
      (Sys.mkWorld {["shell_scripts.txt" := "file.sh";
                     "file.sh" := "echo $1";
                     "modified_lines_map.txt" := "file.sh:all"]} [] [])
      = (Sys.Ret tt, w').
Proof.
  destruct (main_prints_count_and_returns
      (Some (fun _ _ => ("file.sh:5:1: warning: a [SC2086]" +:+ String Py.LF "", "")))
      ["run_shellcheck.py"; "shell_scripts.txt"; "modified_lines_map.txt"]
      (Sys.mkWorld {["shell_scripts.txt" := "file.sh";
                     "file.sh" := "echo $1";
                     "modified_lines_map.txt" := "file.sh:all"]} [] []))
    as (_ & _ & w' & Hmain & _).
  - reflexivity.
  - exists w'. exact Hmain.
Defined.

Lemma on_modified_line_empty (line : string) : on_modified_line ∅ line = false.
Proof.
  unfold on_modified_line. destruct (RunShellcheck.gcc_format_match line) as [[f g]|];
    [|reflexivity].
  destruct (Py.int g); [|reflexivity]. rewrite lookup_empty. reflexivity.
Qed.

Lemma filter_none {A : Type} (p : A -> bool) (l : list A) :
  (forall x, p x = false) -> List.filter p l = [].
Proof. intros H. induction l as [|x l IH]; simpl; [|rewrite H]; auto. Qed.

(** C7.  When the changeset file does not exist, [extract_shell_info.py]
    writes an error to the standard error and exits with status 1.  When
    the map file does not exist, [load_modified_lines_map] writes a warning
    to the standard error and returns the empty map, and [main] of
    [run_shellcheck.py] goes on to its end: it returns, having reported no
    issue. *)
Theorem missing_input_files
    (shellcheck : option (gmap string string -> string -> string * string))
    (prog changeset_file diff_file : string) (w1 : Sys.World)
    (prog' shell_scripts_file map_file : string) (w2 : Sys.World) :
  Sys.files w1 !! changeset_file = None ->
  Sys.files w2 !! map_file = None ->
  (ExtractShellInfo.main [prog; changeset_file; diff_file] w1
     = (Sys.Exit 1,
        Sys.mkWorld (Sys.files w1) (Sys.stdout w1)
          (Sys.stderr w1 ++ ["Error: " +:+ changeset_file +:+ " not found"])) /\
   Sys.exit_status (ExtractShellInfo.main [prog; changeset_file; diff_file] w1).1 = 1) /\
  RunShellcheck.load_modified_lines_map map_file w2
    = (Sys.Ret ∅,
       Sys.mkWorld (Sys.files w2) (Sys.stdout w2)
         (Sys.stderr w2 ++ ["Warning: " +:+ map_file +:+ " not found"])) /\
  (map_file <> "shellcheck_raw.txt" -> map_file <> "shellcheck_filtered.txt" ->
   exists printed errors w',
     RunShellcheck.main shellcheck [prog'; shell_scripts_file; map_file] w2
       = (Sys.Ret tt, w') /\
     Sys.stderr w' = errors ++ ["Warning: " +:+ map_file +:+ " not found"] /\
     Sys.stdout w' = printed ++ ["total_issues=0"; "exit_code=0"]).
Proof.
  intros Hcs Hmap. split; [|split].
  - assert (ExtractShellInfo.main [prog; changeset_file; diff_file] w1
      = (Sys.Exit 1,
         Sys.mkWorld (Sys.files w1) (Sys.stdout w1)
           (Sys.stderr w1 ++ ["Error: " +:+ changeset_file +:+ " not found"]))) as E.
    { unfold ExtractShellInfo.main, Sys.bind at 1, Sys.read_file. rewrite Hcs.
      reflexivity. }
    rewrite E. split; reflexivity.
  - rewrite load_modified_lines_map_spec. unfold loaded_map. rewrite Hmap. reflexivity.
  - intros Hraw Hfiltered.
    destruct (run_main_spec shellcheck prog' shell_scripts_file map_file w2)
      as (raw & out & err & out' & w' & Hmain & _ & Hout & Herr).
    unfold loaded_map in Hout, Herr.
    rewrite !lookup_insert_ne, Hmap in Hout, Herr by congruence.
    cbn [fst snd] in Hout, Herr.
    rewrite (filter_none _ _ on_modified_line_empty) in Hout.
    exists (Sys.stdout w2 ++ out ++ out'), (Sys.stderr w2 ++ err), w'.
    split; [exact Hmain|]. split.
    + rewrite Herr, <- app_assoc. reflexivity.
    + rewrite Hout, <- !app_assoc. reflexivity.
Qed.

Lemma missing_input_files_witness :
  Sys.exit_status
    (ExtractShellInfo.main ["extract_shell_info.py"; "changeset.txt"; "diff.txt"]
       (Sys.mkWorld ∅ [] [])).1 = 1 /\
  RunShellcheck.load_modified_lines_map "modified_lines_map.txt" (Sys.mkWorld ∅ [] [])
    = (Sys.Ret ∅,
       Sys.mkWorld ∅ [] ["Warning: modified_lines_map.txt not found"]).
Proof.
  destruct (missing_input_files None
              "extract_shell_info.py" "changeset.txt" "diff.txt" (Sys.mkWorld ∅ [] [])
              "run_shellcheck.py" "shell_scripts.txt" "modified_lines_map.txt"
              (Sys.mkWorld ∅ [] []))
    as ((_ & Hexit) & Hload & _).
  - reflexivity.
  - reflexivity.
  - split; [exact Hexit|exact Hload].
Defined.

(** * Further properties of the code *)

(** ** [is_shell_script] *)

Lemma endswith_spec (s p : string) :
  Py.endswith s p = true <-> exists a, s = a +:+ p.
Proof.
  induction s as [|c s IH].
  - simpl. rewrite orb_false_r. destruct p as [|x p]; simpl.
    + split; [exists ""; reflexivity|reflexivity].
    + split; [discriminate|]. intros [a Ha]. destruct a; discriminate.
  - change (Py.endswith (String c s) p)
      with (String.eqb (String c s) p || Py.endswith s p).
    rewrite orb_true_iff, String.eqb_eq, IH. split.
    + intros [<- | [a ->]]; [exists ""; reflexivity|exists (String c a); reflexivity].
    + intros [a Ha]. destruct a as [|x a']; simpl in Ha; [left; exact Ha|].
      right. injection Ha as -> ->. eauto.
Qed.

(** X1.  [is_shell_script] holds exactly for a path that ends in [.sh] or
    [.bash], whatever the file system, and for an existing file whose
    stripped first line starts with [#!] and holds [sh]; the test for
    [bash] adds nothing, and a missing file without extension is not a
    shell script. *)
Theorem is_shell_script_iff (fs : gmap string string) (file_path : string) :
  ExtractShellInfo.is_shell_script fs file_path = true <->
  (exists a, file_path = a +:+ ".sh") \/
  (exists a, file_path = a +:+ ".bash") \/
  (exists content b a c,
     fs !! file_path = Some content /\
     Py.strip (Py.readline content) = "#!" +:+ b /\
     Py.strip (Py.readline content) = a +:+ "sh" +:+ c).
Proof.
  unfold ExtractShellInfo.is_shell_script.
  rewrite <- !endswith_spec.
  destruct (Py.endswith file_path ".sh"); [simpl; tauto|].
  destruct (Py.endswith file_path ".bash"); [simpl; tauto|]. cbn [orb].
  destruct (fs !! file_path) as [content|].
  - rewrite andb_true_iff, orb_true_iff, startswith_spec, !contains_spec. split.
    + intros [[b Hb] H]. right. right. exists content, b.
      destruct H as [(a & c & Ha)|(a & c & Ha)].
      * exists (a +:+ "ba"), c. split; [reflexivity|]. split; [exact Hb|].
        rewrite Ha, app_assoc_s. reflexivity.
      * exists a, c. auto.
    + intros [H|[H|(content' & b & a & c & [= <-] & Hb & Ha)]]; try discriminate.
      split; [eauto|]. right. eauto.
  - split; [discriminate|].
    intros [H|[H|(content' & b & a & c & H & _)]]; discriminate.
Qed.

(** ** [parse_diff_file]: what the scan keeps *)

Section ParseInvariants.
Import ExtractShellInfo.

Lemma parse_line_nonempty (st : ParseState) (line : string) :
  (forall f s, modified_lines st !! f = Some s -> s <> ∅) ->
  forall f s, modified_lines (parse_line st line) !! f = Some s -> s <> ∅.
Proof.
  intros Hinv. unfold parse_line.
  destruct (git_diff_match line); [exact Hinv|].
  destruct (hunk_match line) as [g|], (file_set st) as [h|]; try exact Hinv.
  - destruct (Py.int g); exact Hinv.
  - unfold diff_line. destruct (0 <? _); [|exact Hinv].
    destruct (_ && _); [|destruct (Py.startswith line " "); exact Hinv].
    simpl. intros f s. unfold add_line.
    destruct (decide (f = h)) as [->|Hne].
    + rewrite lookup_insert_eq. intros [= <-] He.
      assert (current_line_num st ∈ (∅ : gset Z)) as Habs.
      { rewrite <- He. apply elem_of_union_l, elem_of_singleton. reflexivity. }
      revert Habs. apply not_elem_of_empty.
    + rewrite lookup_insert_ne by congruence. apply Hinv.
Qed.

Lemma parse_lines_nonempty (lines : list string) (st : ParseState) :
  (forall f s, modified_lines st !! f = Some s -> s <> ∅) ->
  forall f s, modified_lines (parse_lines st lines) !! f = Some s -> s <> ∅.
Proof.
  revert st; induction lines as [|l lines IH]; intros st Hinv; [exact Hinv|].
  apply (IH (parse_line st l)), parse_line_nonempty, Hinv.
Qed.

Lemma parse_line_no_header (st : ParseState) (line : string) :
  git_diff_match line = None -> current_file st = None -> parse_line st line = st.
Proof.
  intros Hg Hf. unfold parse_line, file_set. rewrite Hg, Hf.
  destruct (hunk_match line); reflexivity.
Qed.

Lemma parse_line_deleted (st : ParseState) (line : string) :
  Py.startswith line "-" = true -> parse_line st line = st.
Proof.
  intros [b ->]%startswith_spec. unfold parse_line.
  change (git_diff_match ("-" +:+ b)) with (@None string).
  change (hunk_match ("-" +:+ b)) with (@None string).
  destruct (file_set st); [|reflexivity].
  unfold diff_line. destruct (0 <? _); reflexivity.
Qed.

End ParseInvariants.

(** X2.  Every line number that [parse_diff_file] reports is positive. *)
Theorem parse_diff_lines_positive (content f : string) (n : Z) :
  n ∈ default ∅ (ExtractShellInfo.parse_diff content !! f) -> 0 < n.
Proof.
  unfold ExtractShellInfo.parse_diff. intros H.
  apply parse_lines_modified in H as [H|(_ & _ & _ & _ & _ & _ & _ & Hn)]; [|exact Hn].
  simpl in H. rewrite lookup_empty in H. exfalso. revert H. apply not_elem_of_empty.
Qed.

Lemma parse_diff_lines_positive_witness :
  11 ∈ default (∅ : gset Z)
         (ExtractShellInfo.parse_diff "diff --git a/file.sh b/file.sh
@@ -1,3 +10,3 @@
 ctx
+new" !! "file.sh") /\ 0 < 11.
Proof.
  assert (11 ∈ default (∅ : gset Z)
            (ExtractShellInfo.parse_diff "diff --git a/file.sh b/file.sh
@@ -1,3 +10,3 @@
 ctx
+new" !! "file.sh")) as H.
  { assert (ExtractShellInfo.parse_diff "diff --git a/file.sh b/file.sh
@@ -1,3 +10,3 @@
 ctx
+new" = {["file.sh" := {[11]}]}) as ->.
    { apply map_eq. intros k. vm_compute. reflexivity. }
    rewrite lookup_singleton_eq. apply elem_of_singleton. reflexivity. }
  split; [exact H|]. exact (parse_diff_lines_positive _ _ _ H).
Defined.

(** X3.  [parse_diff_file] never stores an empty set: a file has an entry
    only once one of its added lines is counted, so the test [script in
    modified_lines and modified_lines[script]] of [main] is the test
    [script in modified_lines]. *)
Theorem parse_diff_sets_nonempty (content script : string) :
  (forall s, ExtractShellInfo.parse_diff content !! script = Some s -> s <> ∅) /\
  ExtractShellInfo.has_lines (ExtractShellInfo.parse_diff content) script
    = bool_decide (is_Some (ExtractShellInfo.parse_diff content !! script)).
Proof.
  assert (forall s, ExtractShellInfo.parse_diff content !! script = Some s -> s <> ∅) as H.
  { intros s. unfold ExtractShellInfo.parse_diff. apply parse_lines_nonempty.
    intros f s'. simpl. rewrite lookup_empty. discriminate. }
  split; [exact H|]. unfold ExtractShellInfo.has_lines.
  destruct (ExtractShellInfo.parse_diff content !! script) as [s|] eqn:E.
  - rewrite bool_decide_eq_true_2 by (apply H; reflexivity).
    symmetry. apply bool_decide_eq_true_2. eauto.
  - symmetry. apply bool_decide_eq_false_2. intros [? ?]. discriminate.
Qed.

(** X4.  A diff in which no line is a [diff --git a/... b/...] header
    reports nothing: hunks and added lines count only under a file. *)
Theorem parse_diff_without_header (content : string) :
  Forall (fun line => ExtractShellInfo.git_diff_match line = None)
    (Py.split Py.LF content) ->
  ExtractShellInfo.parse_diff content = ∅.
Proof.
  unfold ExtractShellInfo.parse_diff.
  assert (forall lines st,
    Forall (fun line => ExtractShellInfo.git_diff_match line = None) lines ->
    ExtractShellInfo.current_file st = None ->
    ExtractShellInfo.parse_lines st lines = st) as H.
  { induction lines as [|l lines IH]; intros st Hl Hf; [reflexivity|].
    inversion Hl as [|? ? Hg Hrest]; subst.
    change (ExtractShellInfo.parse_lines st (l :: lines))
      with (ExtractShellInfo.parse_lines (ExtractShellInfo.parse_line st l) lines).
    rewrite parse_line_no_header by assumption. apply IH; assumption. }
  intros Hl. rewrite H; [reflexivity|exact Hl|reflexivity].
Qed.

Lemma parse_diff_without_header_witness :
  ExtractShellInfo.parse_diff "@@ -1,3 +10,3 @@
+new" = ∅.
Proof.
  apply parse_diff_without_header. repeat constructor.
Defined.

(** X5.  A deleted line (one that starts with [-]) changes nothing, not
    even the counter: the scan of a diff gives the same result with the
    line taken out. *)
Theorem deleted_line_changes_nothing
    (st : ExtractShellInfo.ParseState) (before after : list string) (line : string) :
  Py.startswith line "-" = true ->
  ExtractShellInfo.parse_lines st (before ++ line :: after)
    = ExtractShellInfo.parse_lines st (before ++ after).
Proof.
  intros Hd. unfold ExtractShellInfo.parse_lines.
  rewrite !fold_left_app. simpl. rewrite parse_line_deleted by exact Hd. reflexivity.
Qed.

Lemma deleted_line_changes_nothing_witness :
  ExtractShellInfo.parse_lines ExtractShellInfo.initial_state
    (["diff --git a/f.sh b/f.sh"; "@@ -1,2 +1,2 @@"] ++ "-old" :: ["+new"])
  = ExtractShellInfo.parse_lines ExtractShellInfo.initial_state
      (["diff --git a/f.sh b/f.sh"; "@@ -1,2 +1,2 @@"] ++ ["+new"]).
Proof.
  apply (deleted_line_changes_nothing ExtractShellInfo.initial_state
           ["diff --git a/f.sh b/f.sh"; "@@ -1,2 +1,2 @@"] ["+new"] "-old").
  reflexivity.
Defined.


(** ** Repetitions that match *)

Section MatcherComplete.
Context {A : Type}.

Lemma plus_none (cls : ascii -> bool) (s : string) (k : string -> string -> option A) :
  (forall a b, s = a +:+ b -> Py.truthy a = true -> all_chars cls a = true ->
               k a b = None) ->
  Re.plus cls s k = None.
Proof.
  revert k; induction s as [|c s IH]; intros k Hk; simpl; [reflexivity|].
  destruct (cls c) eqn:Hc; [|reflexivity].
  rewrite IH.
  - apply (Hk (String c "") s); [reflexivity|reflexivity|].
    simpl. rewrite Hc. reflexivity.
  - intros a b -> Ha Hcls. apply (Hk (String c a) b); [reflexivity|reflexivity|].
    simpl. rewrite Hc. exact Hcls.
Qed.

(** [cls+] takes the longest run after which the rest of the pattern
    matches. *)
Lemma plus_longest (cls : ascii -> bool) (m rest : string)
    (k : string -> string -> option A) (x : A) :
  all_chars cls m = true -> Py.truthy m = true ->
  (forall a b, rest = a +:+ b -> Py.truthy a = true -> all_chars cls a = true ->
               k (m +:+ a) b = None) ->
  k m rest = Some x ->
  Re.plus cls (m +:+ rest) k = Some x.
Proof.
  revert k; induction m as [|c m IH]; intros k Hm Ht Hlonger Hk; [discriminate|].
  simpl in Hm. apply andb_true_iff in Hm as [Hc Hm].
  simpl. rewrite Hc. destruct m as [|d m].
  - simpl. rewrite plus_none; [exact Hk|].
    intros a b -> Ha Hcls. apply (Hlonger a b); auto.
  - rewrite (IH (fun m0 => k (String c m0))); auto.
Qed.

Lemma stops_no_longer (cls : ascii -> bool) (rest a b : string) :
  stops cls rest = true -> rest = a +:+ b -> Py.truthy a = true ->
  all_chars cls a = true -> False.
Proof.
  intros Hs -> Ha Hcls. destruct a as [|c a]; [discriminate|].
  simpl in Hs, Hcls. apply andb_true_iff in Hcls as [Hc _].
  rewrite Hc in Hs. discriminate.
Qed.

Lemma plus_exact (cls : ascii -> bool) (m rest : string)
    (k : string -> string -> option A) (x : A) :
  all_chars cls m = true -> Py.truthy m = true -> stops cls rest = true ->
  k m rest = Some x ->
  Re.plus cls (m +:+ rest) k = Some x.
Proof.
  intros Hm Ht Hs Hk. apply plus_longest; auto.
  intros a b E Ha Hcls. destruct (stops_no_longer cls rest a b); assumption.
Qed.

Lemma star_exact (cls : ascii -> bool) (m rest : string)
    (k : string -> string -> option A) (x : A) :
  all_chars cls m = true -> stops cls rest = true ->
  k m rest = Some x ->
  Re.star cls (m +:+ rest) k = Some x.
Proof.
  intros Hm Hs Hk. unfold Re.star. destruct m as [|c m].
  - simpl. rewrite plus_none; [exact Hk|].
    intros a b E Ha Hcls. destruct (stops_no_longer cls rest a b); assumption.
  - rewrite (plus_exact cls (String c m) rest k x); auto.
Qed.

End MatcherComplete.

(** ** [str] and [int] *)

Section StrInt.

Lemma digits_value_app (a b : string) (acc : Z) :
  digits_value acc (a +:+ b) = digits_value (digits_value acc a) b.
Proof. revert acc; induction a as [|c a IH]; intros acc; simpl; auto. Qed.

Lemma int_digits_value (s : string) (acc : Z) (b : bool) :
  all_chars Py.isdigit s = true -> Py.truthy s = true \/ b = true ->
  Py.int_digits acc b s = Some (digits_value acc s).
Proof.
  revert acc b; induction s as [|c s IH]; intros acc b; simpl.
  - intros _ [?| ->]; [discriminate|reflexivity].
  - intros [Hc Hs]%andb_true_iff _. rewrite Hc. apply IH; auto.
Qed.

Lemma pretty_N_char_digit (d : N) :
  (d < 10)%N ->
  Py.isdigit (pretty_N_char d) = true /\ Py.digit_value (pretty_N_char d) = Z.of_N d.
Proof.
  intros Hd.
  assert (d = 0 \/ d = 1 \/ d = 2 \/ d = 3 \/ d = 4 \/ d = 5 \/ d = 6 \/ d = 7
          \/ d = 8 \/ d = 9)%N as H by lia.
  repeat (destruct H as [->|H]; [split; reflexivity|]). subst. split; reflexivity.
Qed.

Lemma pretty_N_go_app (x : N) (s : string) :
  pretty_N_go x s = pretty_N_go x "" +:+ s.
Proof.
  revert s. induction (N.lt_wf_0 x) as [x _ IH]; intros s.
  destruct (decide (x = 0)%N) as [->|Hx]; [reflexivity|].
  rewrite (pretty_N_go_step x s), (pretty_N_go_step x "") by lia.
  assert (x `div` 10 < x)%N as Hlt by (apply N.div_lt; lia).
  rewrite (IH _ Hlt (String _ s)), (IH _ Hlt (String _ "")).
  rewrite app_assoc_s. reflexivity.
Qed.

Lemma pretty_N_go_digits (x : N) :
  all_chars Py.isdigit (pretty_N_go x "") = true /\
  digits_value 0 (pretty_N_go x "") = Z.of_N x /\
  ((0 < x)%N -> Py.truthy (pretty_N_go x "") = true).
Proof.
  induction (N.lt_wf_0 x) as [x _ IH].
  destruct (decide (x = 0)%N) as [->|Hx]; [repeat split; intros; lia|].
  rewrite pretty_N_go_step, pretty_N_go_app by lia.
  destruct (IH (x `div` 10)%N) as (Hd & Hv & _); [apply N.div_lt; lia|].
  destruct (pretty_N_char_digit (x `mod` 10)%N) as [Hc Hcv]; [apply N.mod_lt; lia|].
  split; [|split].
  - rewrite all_chars_app, Hd. simpl. rewrite Hc. reflexivity.
  - rewrite digits_value_app, Hv. simpl. rewrite Hcv.
    rewrite (N.div_mod x 10) at 3 by lia. lia.
  - intros _. apply truthy_app_r. reflexivity.
Qed.

(** The decimal form of a natural number: a non-empty run of digits. *)
Lemma str_of_N_digits (n : N) :
  all_chars Py.isdigit (Py.str (Z.of_N n)) = true /\
  Py.truthy (Py.str (Z.of_N n)) = true /\
  digits_value 0 (Py.str (Z.of_N n)) = Z.of_N n.
Proof.
  destruct n as [|p]; [repeat split; reflexivity|].
  change (Py.str (Z.of_N (N.pos p))) with (pretty (N.pos p)).
  unfold pretty, pretty_N. rewrite decide_False by discriminate.
  destruct (pretty_N_go_digits (N.pos p)) as (Hd & Hv & Ht).
  split; [exact Hd|]. split; [apply Ht; lia|exact Hv].
Qed.

Lemma int_of_digits_value (g : string) :
  all_chars Py.isdigit g = true -> Py.truthy g = true ->
  Py.int g = Some (digits_value 0 g).
Proof.
  intros Hg Ht. unfold Py.int. rewrite (int_strip_digits g Hg).
  destruct g as [|c g]; [discriminate|].
  pose proof Hg as [Hc _]%andb_true_iff.
  destruct (digit_not_sign c Hc) as [-> ->].
  apply int_digits_value; auto.
Qed.

End StrInt.

(** [int] reads back what [str] prints. *)
Lemma int_str (z : Z) : Py.int (Py.str z) = Some z.
Proof.
  destruct z as [|p|p].
  - reflexivity.
  - destruct (str_of_N_digits (N.pos p)) as (Hd & Ht & Hv).
    change (Z.pos p) with (Z.of_N (N.pos p)).
    rewrite int_of_digits_value by assumption. rewrite Hv. reflexivity.
  - destruct (str_of_N_digits (N.pos p)) as (Hd & Ht & Hv).
    change (Py.str (Z.neg p)) with (String "-" (Py.str (Z.of_N (N.pos p)))).
    remember (Py.str (Z.of_N (N.pos p))) as D eqn:HD.
    unfold Py.int. simpl. rewrite (int_rstrip_digits D Hd). simpl.
    rewrite int_digits_value by auto. rewrite Hv. reflexivity.
Qed.


(** ** The three patterns on well-formed lines *)

Section PatternsComplete.

Lemma lit_app {A : Type} (p r : string) (k : string -> option A) :
  Re.lit p (p +:+ r) k = k r.
Proof.
  unfold Re.lit. rewrite (proj2 (after_prefix_spec p (p +:+ r) r)); reflexivity.
Qed.

Lemma lit_none {A : Type} (c d : ascii) (p s : string) (k : string -> option A) :
  c <> d -> Re.lit (String c p) (String d s) k = None.
Proof.
  intros Hne. unfold Re.lit. simpl.
  destruct (Ascii.eqb_spec c d); [contradiction|reflexivity].
Qed.

Lemma gcc_format_match_complete (f msg : string) (line col : N) :
  Py.truthy f = true ->
  all_chars (fun c => negb (Ascii.eqb c ":")) f = true ->
  all_chars Py.isdot msg = true ->
  RunShellcheck.gcc_format_match
    (f +:+ ":" +:+ Py.str (Z.of_N line) +:+ ":" +:+ Py.str (Z.of_N col) +:+ ":" +:+ msg)
  = Some (f, Py.str (Z.of_N line)).
Proof.
  intros Ht Hf Hmsg.
  destruct (str_of_N_digits line) as (Hl & Hlt & _).
  destruct (str_of_N_digits col) as (Hc & Hct & _).
  unfold RunShellcheck.gcc_format_match.
  apply plus_exact; [exact Hf|exact Ht|reflexivity|].
  rewrite lit_app. apply plus_exact; [exact Hl|exact Hlt|reflexivity|].
  rewrite lit_app. apply plus_exact; [exact Hc|exact Hct|reflexivity|].
  rewrite lit_app. rewrite <- (app_empty_r msg).
  apply star_exact; [exact Hmsg|reflexivity|reflexivity].
Qed.

Lemma comma_count_some {A : Type} (n : N) (rest : string) (k : string -> option A) (x : A) :
  stops Py.isdigit rest = true -> k rest = Some x ->
  Re.opt ExtractShellInfo.comma_count (count_text (Some n) +:+ rest) k = Some x.
Proof.
  intros Hs Hk. destruct (str_of_N_digits n) as (Hd & Ht & _).
  unfold Re.opt, ExtractShellInfo.comma_count, count_text.
  rewrite app_assoc_s, lit_app.
  rewrite (plus_exact Py.isdigit _ rest _ x); auto.
Qed.

Lemma comma_count_none {A : Type} (c : ascii) (rest : string) (k : string -> option A) :
  c <> ","%char ->
  Re.opt ExtractShellInfo.comma_count (count_text None +:+ String c rest) k
    = k (String c rest).
Proof.
  intros Hc. unfold Re.opt, ExtractShellInfo.comma_count, count_text. simpl.
  rewrite lit_none by congruence. reflexivity.
Qed.

Lemma hunk_match_complete (a c : N) (b d : option N) (tail : string) :
  ExtractShellInfo.hunk_match
    ("@@ -" +:+ Py.str (Z.of_N a) +:+ count_text b +:+ " +"
     +:+ Py.str (Z.of_N c) +:+ count_text d +:+ " @@" +:+ tail)
  = Some (Py.str (Z.of_N c)).
Proof.
  destruct (str_of_N_digits a) as (Ha & Hat & _).
  destruct (str_of_N_digits c) as (Hc & Hct & _).
  unfold ExtractShellInfo.hunk_match.
  change ("@@ -" +:+ ?x) with ("@@" +:+ " " +:+ "-" +:+ x).
  rewrite lit_app. apply plus_exact; [reflexivity|reflexivity|reflexivity|].
  rewrite lit_app.
  apply plus_exact; [exact Ha|exact Hat|destruct b; reflexivity|].
  assert (forall (cnt : option N) (rest : string) (k : string -> option string) x,
            k (String " " rest) = Some x ->
            Re.opt ExtractShellInfo.comma_count (count_text cnt +:+ String " " rest) k
              = Some x) as Hopt.
  { intros [n|] rest k x Hk.
    - apply comma_count_some; [reflexivity|exact Hk].
    - rewrite comma_count_none by discriminate. exact Hk. }
  change (" +" +:+ ?x) with (String " " ("+" +:+ x)).
  apply Hopt.
  change (String " " ?x) with (" " +:+ x).
  apply plus_exact; [reflexivity|reflexivity|reflexivity|].
  rewrite lit_app.
  apply plus_exact; [exact Hc|exact Hct|destruct d; reflexivity|].
  change (" @@" +:+ tail) with (String " " ("@@" +:+ tail)).
  apply Hopt.
  change (String " " ?x) with (" " +:+ x).
  apply plus_exact; [reflexivity|reflexivity|reflexivity|].
  rewrite lit_app. reflexivity.
Qed.

Lemma git_diff_match_complete (old_path new_path : string) :
  Py.truthy old_path = true -> all_chars Py.isdot old_path = true ->
  Py.truthy new_path = true -> all_chars Py.isdot new_path = true ->
  all_chars (fun c => negb (Ascii.eqb c " ")) new_path = true ->
  ExtractShellInfo.git_diff_match
    ("diff --git a/" +:+ old_path +:+ " b/" +:+ new_path) = Some old_path.
Proof.
  intros Hot Hod Hnt Hnd Hns. unfold ExtractShellInfo.git_diff_match.
  rewrite lit_app. apply plus_longest; [exact Hod|exact Hot| |].
  - intros a b E Ha _. destruct a as [|x a]; [discriminate|].
    simpl in E. injection E as <- E.
    assert (all_chars (fun c => negb (Ascii.eqb c " ")) b = true) as Hb.
    { assert (all_chars (fun c => negb (Ascii.eqb c " ")) (a +:+ b) = true) as H
        by (rewrite <- E; simpl; exact Hns).
      rewrite all_chars_app in H. apply andb_true_iff in H as [_ H]. exact H. }
    destruct b as [|y b]; [reflexivity|].
    simpl in Hb. apply andb_true_iff in Hb as [Hy _]. apply negb_true_iff in Hy.
    apply lit_none. intros <-. rewrite Ascii.eqb_refl in Hy. discriminate.
  - rewrite lit_app. rewrite <- (app_empty_r new_path).
    apply plus_exact; [exact Hnd|exact Hnt|reflexivity|reflexivity].
Qed.

End PatternsComplete.

(** ** [parse_diff_file]: the lines of a hunk *)

Section HunkScan.
Import ExtractShellInfo.

Lemma count_new_cons (line : string) (lines : list string) :
  count_new (line :: lines)
    = (if in_new_revision line then 1 else 0) + count_new lines.
Proof.
  unfold count_new. simpl. destruct (in_new_revision line); simpl length; lia.
Qed.

Lemma count_new_nonneg (lines : list string) : 0 <= count_new lines.
Proof. unfold count_new. lia. Qed.

(** One line of a body, under a current file and a positive counter. *)
Lemma parse_line_body (st : ParseState) (f line : string) :
  file_set st = Some f -> 0 < current_line_num st -> body_line line ->
  parse_line st line =
    mkParseState (current_file st)
      (current_line_num st + (if in_new_revision line then 1 else 0))
      (if Py.startswith line "+"
       then add_line f (current_line_num st) (modified_lines st)
       else modified_lines st).
Proof.
  intros Hf Hn (Hg & Hh & Hppp). unfold parse_line. rewrite Hg, Hh, Hf.
  unfold diff_line, in_new_revision. apply Z.ltb_lt in Hn. rewrite Hn, Hppp.
  destruct (Py.startswith line "+"); simpl; [reflexivity|].
  destruct (Py.startswith line " "); [reflexivity|].
  rewrite Z.add_0_r. destruct st; reflexivity.
Qed.

(** The scan of a body: the counter moves by one for each line of the new
    revision, and the set of the current file gains the numbers of the
    added lines. *)
Lemma parse_lines_body (body : list string) (st : ParseState) (f : string) :
  file_set st = Some f -> 0 < current_line_num st -> Forall body_line body ->
  current_line_num (parse_lines st body) = current_line_num st + count_new body /\
  forall n,
    n ∈ default ∅ (modified_lines (parse_lines st body) !! f) <->
    n ∈ default ∅ (modified_lines st !! f) \/
    exists i line, body !! i = Some line /\ Py.startswith line "+" = true /\
                   n = new_line_number (current_line_num st) body i.
Proof.
  revert st; induction body as [|l body IH]; intros st Hf Hn Hbody.
  - split; [simpl; unfold count_new; simpl; lia|].
    intros n. simpl. split; [auto|]. intros [H|(i & line & H & _)]; [exact H|].
    rewrite lookup_nil in H. discriminate.
  - inversion Hbody as [|? ? Hl Hrest]; subst.
    change (parse_lines st (l :: body)) with (parse_lines (parse_line st l) body).
    rewrite (parse_line_body st f l Hf Hn Hl).
    set (st1 := mkParseState _ _ _).
    assert (file_set st1 = Some f) as Hf1 by exact Hf.
    assert (0 < current_line_num st1) as Hn1
      by (simpl; destruct (in_new_revision l); lia).
    destruct (IH st1 Hf1 Hn1 Hrest) as [Hcount Hset].
    split; [rewrite Hcount, count_new_cons; simpl; lia|].
    intros n. rewrite Hset. simpl. split.
    + intros [H|(i & line & Hi & Hadd & ->)].
      * destruct (Py.startswith l "+") eqn:Hladd; [|left; exact H].
        apply lookup_add_line in H as [H|[_ ->]]; [left; exact H|].
        right. exists 0%nat, l. split; [reflexivity|]. split; [exact Hladd|].
        unfold new_line_number, count_new. simpl. lia.
      * right. exists (S i), line. split; [exact Hi|]. split; [exact Hadd|].
        unfold new_line_number. simpl take. rewrite count_new_cons. lia.
    + intros [H|(i & line & Hi & Hadd & ->)].
      * left. destruct (Py.startswith l "+"); [|exact H].
        apply lookup_add_line. left. exact H.
      * destruct i as [|i].
        -- injection Hi as <-. rewrite Hadd. left. apply lookup_add_line. right.
           split; [reflexivity|]. unfold new_line_number, count_new. simpl. lia.
        -- right. exists i, line. split; [exact Hi|]. split; [exact Hadd|].
           unfold new_line_number. simpl take. rewrite count_new_cons. lia.
Qed.

(** Two lines of the new revision have different numbers. *)
Lemma count_new_take_lt (body : list string) (i j : nat) (line : string) :
  (i < j)%nat -> body !! i = Some line -> in_new_revision line = true ->
  count_new (take i body) < count_new (take j body).
Proof.
  revert i j; induction body as [|x body IH]; intros i j Hij Hi Hnew.
  - rewrite lookup_nil in Hi. discriminate.
  - destruct j as [|j]; [lia|]. destruct i as [|i].
    + injection Hi as ->. simpl take. rewrite count_new_cons, Hnew.
      pose proof (count_new_nonneg (take j body)). unfold count_new at 1. simpl. lia.
    + simpl take. rewrite !count_new_cons.
      assert (count_new (take i body) < count_new (take j body))
        by (apply (IH i j); [lia|exact Hi|exact Hnew]).
      lia.
Qed.

Lemma added_not_context (line : string) :
  Py.startswith line "+" = true -> Py.startswith line " " = true -> False.
Proof.
  intros [b ->]%startswith_spec H. discriminate H.
Qed.

End HunkScan.

(** C2.  A line left as context is not counted as modified: like an added
    line it moves the new-revision counter by one, and that is all.  In a
    hunk [@@ -a[,b] +c[,d] @@] of a file [f], whose body has no header
    line and no line starting with [+++], the set of [f] gains exactly the
    new-revision numbers of the added lines, a line's number being [c]
    plus the number of added and context lines before it in the body; the
    number of a context line is in the set only if it was there before
    the hunk; the counter ends at [c] plus the number of added and context
    lines. *)
Theorem hunk_counts_added_lines_only
    (st : ExtractShellInfo.ParseState) (f : string) (a c : N) (b d : option N)
    (tail : string) (body : list string) :
  ExtractShellInfo.file_set st = Some f ->
  (0 < c)%N ->
  Forall body_line body ->
  let header :=
    "@@ -" +:+ Py.str (Z.of_N a) +:+ count_text b +:+ " +"
    +:+ Py.str (Z.of_N c) +:+ count_text d +:+ " @@" +:+ tail in
  let st' := ExtractShellInfo.parse_lines st (header :: body) in
  (forall n,
     n ∈ default ∅ (ExtractShellInfo.modified_lines st' !! f) <->
     n ∈ default ∅ (ExtractShellInfo.modified_lines st !! f) \/
     exists i line, body !! i = Some line /\ Py.startswith line "+" = true /\
                    n = new_line_number (Z.of_N c) body i) /\
  (forall j line,
     body !! j = Some line -> Py.startswith line " " = true ->
     new_line_number (Z.of_N c) body j
       ∈ default ∅ (ExtractShellInfo.modified_lines st' !! f) ->
     new_line_number (Z.of_N c) body j
       ∈ default ∅ (ExtractShellInfo.modified_lines st !! f)) /\
  ExtractShellInfo.current_line_num st' = Z.of_N c + count_new body.
Proof.
  intros Hf Hc Hbody header st'.
  assert (ExtractShellInfo.parse_line st header
          = ExtractShellInfo.mkParseState (ExtractShellInfo.current_file st) (Z.of_N c)
              (ExtractShellInfo.modified_lines st)) as Hhead.
  { unfold ExtractShellInfo.parse_line, header.
    rewrite hunk_match_complete, int_str, Hf.
    change (ExtractShellInfo.git_diff_match ("@@ -" +:+ ?x)) with (@None string).
    reflexivity. }
  unfold st'.
  change (ExtractShellInfo.parse_lines st (header :: body))
    with (ExtractShellInfo.parse_lines (ExtractShellInfo.parse_line st header) body).
  rewrite Hhead.
  destruct (parse_lines_body body
              (ExtractShellInfo.mkParseState (ExtractShellInfo.current_file st)
                 (Z.of_N c) (ExtractShellInfo.modified_lines st)) f)
    as [Hcount Hset]; [exact Hf|simpl; lia|exact Hbody|].
  simpl in Hcount, Hset. split; [exact Hset|]. split; [|exact Hcount].
  intros j line Hj Hctx Hin. apply Hset in Hin as [Hin|(i & l & Hi & Hadd & E)];
    [exact Hin|]. exfalso.
  unfold new_line_number in E.
  assert (in_new_revision l = true) as Hnl
    by (unfold in_new_revision; rewrite Hadd; reflexivity).
  assert (in_new_revision line = true) as Hnline
    by (unfold in_new_revision; rewrite Hctx; apply orb_true_r).
  destruct (Nat.lt_trichotomy i j) as [Hlt|[->|Hlt]].
  - pose proof (count_new_take_lt body i j l Hlt Hi Hnl). lia.
  - rewrite Hj in Hi. injection Hi as <-. exact (added_not_context line Hadd Hctx).
  - pose proof (count_new_take_lt body j i line Hlt Hj Hnline). lia.
Qed.

Lemma hunk_counts_added_lines_only_witness :
  ExtractShellInfo.current_line_num
    (ExtractShellInfo.parse_lines
       (ExtractShellInfo.mkParseState (Some "file.sh") 0 ∅)
       ["@@ -1,3 +10,3 @@"; " ctx"; "-old"; "+new"])
  = 10 + count_new [" ctx"; "-old"; "+new"].
Proof.
  apply (hunk_counts_added_lines_only
           (ExtractShellInfo.mkParseState (Some "file.sh") 0 ∅) "file.sh"
           1 10 (Some 3%N) (Some 3%N) "" [" ctx"; "-old"; "+new"]).
  - reflexivity.
  - reflexivity.
  - repeat constructor.
Defined.


(** X6.  Every line of the shape [file:line:column:message], with a
    non-empty [file] without colon and a [message] without line feed, is
    a finding on line [line] of [file]. *)
Theorem gcc_line_is_finding (f msg : string) (line col : N) :
  Py.truthy f = true ->
  all_chars (fun c => negb (Ascii.eqb c ":")) f = true ->
  all_chars Py.isdot msg = true ->
  finding_at
    (f +:+ ":" +:+ Py.str (Z.of_N line) +:+ ":" +:+ Py.str (Z.of_N col) +:+ ":" +:+ msg)
    f (Z.of_N line).
Proof.
  intros Ht Hf Hmsg. exists (Py.str (Z.of_N line)). split.
  - apply gcc_format_match_complete; assumption.
  - apply int_str.
Qed.

Lemma gcc_line_is_finding_witness :
  finding_at "file.sh:6:3: note: b [SC2034]" "file.sh" 6.
Proof.
  apply (gcc_line_is_finding "file.sh" " note: b [SC2034]" 6 3); reflexivity.
Defined.

(** X7.  A hunk header [@@ -a[,b] +c[,d] @@], whatever follows it, sets
    the counter to [c] when a file is current, and changes nothing
    otherwise. *)
Theorem hunk_header_sets_counter
    (st : ExtractShellInfo.ParseState) (a c : N) (b d : option N) (tail : string) :
  ExtractShellInfo.parse_line st
    ("@@ -" +:+ Py.str (Z.of_N a) +:+ count_text b +:+ " +"
     +:+ Py.str (Z.of_N c) +:+ count_text d +:+ " @@" +:+ tail)
  = match ExtractShellInfo.file_set st with
    | Some _ =>
        ExtractShellInfo.mkParseState (ExtractShellInfo.current_file st) (Z.of_N c)
          (ExtractShellInfo.modified_lines st)
    | None => st
    end.
Proof.
  unfold ExtractShellInfo.parse_line.
  rewrite hunk_match_complete, int_str.
  change (ExtractShellInfo.git_diff_match ("@@ -" +:+ ?x)) with (@None string).
  destruct (ExtractShellInfo.file_set st); reflexivity.
Qed.

(** X8.  On the header [diff --git a/old b/new] with a [new] path free of
    spaces, the current file becomes [old], whatever [old] is; the
    counter and the sets are kept. *)
Theorem file_header_sets_current_file
    (st : ExtractShellInfo.ParseState) (old_path new_path : string) :
  Py.truthy old_path = true -> all_chars Py.isdot old_path = true ->
  Py.truthy new_path = true -> all_chars Py.isdot new_path = true ->
  all_chars (fun c => negb (Ascii.eqb c " ")) new_path = true ->
  ExtractShellInfo.parse_line st ("diff --git a/" +:+ old_path +:+ " b/" +:+ new_path)
  = ExtractShellInfo.mkParseState (Some old_path)
      (ExtractShellInfo.current_line_num st) (ExtractShellInfo.modified_lines st).
Proof.
  intros. unfold ExtractShellInfo.parse_line.
  rewrite git_diff_match_complete by assumption. reflexivity.
Qed.

Lemma file_header_sets_current_file_witness :
  ExtractShellInfo.parse_line ExtractShellInfo.initial_state
    "diff --git a/dir/my file.sh b/dir/file.sh"
  = ExtractShellInfo.mkParseState (Some "dir/my file.sh") 0 ∅.
Proof.
  apply (file_header_sets_current_file ExtractShellInfo.initial_state
           "dir/my file.sh" "dir/file.sh"); reflexivity.
Defined.


(** ** From [extract_shell_info.py] to [run_shellcheck.py]: the line lists *)

Section LineListRoundTrip.

Lemma all_chars_impl (p q : ascii -> bool) (s : string) :
  (forall c, p c = true -> q c = true) -> all_chars p s = true -> all_chars q s = true.
Proof.
  intros Hpq. induction s as [|c s IH]; simpl; [reflexivity|].
  intros [Hc Hs]%andb_true_iff. rewrite (Hpq c Hc), IH by exact Hs. reflexivity.
Qed.

Lemma numchar_facts (c : ascii) :
  isnumchar c = true ->
  nonspace c = true /\ noncomma c = true /\ Py.isdot c = true /\ islistchar c = true.
Proof. destruct c as [[] [] [] [] [] [] [] []]; vm_compute; intuition congruence. Qed.

Lemma listchar_facts (c : ascii) :
  islistchar c = true -> nonspace c = true /\ Py.isdot c = true /\ c <> "a"%char.
Proof. destruct c as [[] [] [] [] [] [] [] []]; vm_compute; intuition congruence. Qed.

Lemma rstrip_nonspace (s : string) : all_chars nonspace s = true -> Py.rstrip s = s.
Proof.
  induction s as [|c s IH]; simpl; [reflexivity|].
  unfold nonspace at 1. intros [Hc Hs]%andb_true_iff. apply negb_true_iff in Hc.
  rewrite IH, Hc by exact Hs. reflexivity.
Qed.

Lemma strip_nonspace (s : string) : all_chars nonspace s = true -> Py.strip s = s.
Proof.
  intros Hs. unfold Py.strip. destruct s as [|c s]; [reflexivity|].
  pose proof Hs as [Hc _]%andb_true_iff. apply negb_true_iff in Hc.
  simpl Py.lstrip. rewrite Hc. apply rstrip_nonspace, Hs.
Qed.

Lemma str_chars (z : Z) :
  all_chars isnumchar (Py.str z) = true /\ Py.truthy (Py.str z) = true.
Proof.
  assert (forall n, all_chars isnumchar (Py.str (Z.of_N n)) = true) as Hn.
  { intros n. destruct (str_of_N_digits n) as (Hd & _ & _).
    revert Hd. apply all_chars_impl. intros c Hc. unfold isnumchar. rewrite Hc.
    reflexivity. }
  destruct z as [|p|p].
  - split; reflexivity.
  - split; [apply (Hn (N.pos p))|]. apply (str_of_N_digits (N.pos p)).
  - change (Py.str (Z.neg p)) with (String "-" (Py.str (Z.of_N (N.pos p)))).
    split; [|reflexivity]. simpl. apply (Hn (N.pos p)).
Qed.

Lemma split_join (sep : ascii) (l : list string) :
  Forall (fun x => all_chars (fun c => negb (Ascii.eqb c sep)) x = true) l ->
  l <> [] ->
  Py.split sep (Py.join (String sep "") l) = l.
Proof.
  induction l as [|x [|y l] IH]; intros Hl Hne; [contradiction| |].
  - inversion Hl; subst. simpl. apply split_one. assumption.
  - inversion Hl as [|? ? Hx Hrest]; subst.
    change (Py.join (String sep "") (x :: y :: l))
      with (x +:+ String sep (Py.join (String sep "") (y :: l))).
    rewrite split_app, IH by (auto; discriminate).
    rewrite split_one by exact Hx. reflexivity.
Qed.

Lemma all_chars_join (p : ascii -> bool) (sep : string) (l : list string) :
  all_chars p sep = true -> Forall (fun x => all_chars p x = true) l ->
  all_chars p (Py.join sep l) = true.
Proof.
  intros Hsep. induction l as [|x [|y l] IH]; intros Hl; [reflexivity| |].
  - inversion Hl; subst. assumption.
  - inversion Hl as [|? ? Hx Hrest]; subst.
    change (Py.join sep (x :: y :: l)) with (x +:+ sep +:+ Py.join sep (y :: l)).
    rewrite !all_chars_app, Hx, Hsep, IH by exact Hrest. reflexivity.
Qed.

Lemma line_list_of_strs (zs : list Z) :
  RunShellcheck.line_list (Py.join "," (map Py.str zs)) = Some zs.
Proof.
  unfold RunShellcheck.line_list.
  assert (List.filter (fun x => Py.truthy (Py.strip x))
            (Py.split "," (Py.join "," (map Py.str zs))) = map Py.str zs) as ->.
  { destruct zs as [|z zs]; [reflexivity|].
    rewrite split_join; [| |discriminate].
    - apply forallb_filter_id, forallb_forall. intros x [z' [<- _]]%in_map_iff.
      destruct (str_chars z') as [Hc Ht].
      rewrite strip_nonspace; [exact Ht|].
      revert Hc. apply all_chars_impl. intros c Hc. apply numchar_facts, Hc.
    - apply Forall_forall. intros x [z' [<- _]]%list_elem_of_In%in_map_iff.
      destruct (str_chars z') as [Hc _].
      revert Hc. apply all_chars_impl. intros c Hc. apply numchar_facts, Hc. }
  apply mapM_Some. induction zs as [|z zs IH]; constructor; [|exact IH].
  destruct (str_chars z) as [Hc _].
  rewrite strip_nonspace; [apply int_str|].
  revert Hc. apply all_chars_impl. intros c Hc. apply numchar_facts, Hc.
Qed.

Lemma lines_str_chars (s : gset Z) :
  all_chars islistchar (ExtractShellInfo.lines_str s) = true.
Proof.
  unfold ExtractShellInfo.lines_str. apply all_chars_join; [reflexivity|].
  apply Forall_forall. intros x [z [<- _]]%list_elem_of_In%in_map_iff.
  destruct (str_chars z) as [Hc _].
  revert Hc. apply all_chars_impl. intros c Hc. apply numchar_facts, Hc.
Qed.

Lemma lines_str_not_all (s : gset Z) :
  String.eqb (ExtractShellInfo.lines_str s) "all" = false.
Proof.
  apply String.eqb_neq. intros E. pose proof (lines_str_chars s) as H.
  rewrite E in H. discriminate H.
Qed.

Lemma is_line_modified_lines_str (file_path : string) (line_num : Z) (s : gset Z) :
  RunShellcheck.is_line_modified file_path line_num (ExtractShellInfo.lines_str s)
    = bool_decide (line_num ∈ s).
Proof.
  unfold RunShellcheck.is_line_modified. rewrite lines_str_not_all.
  unfold ExtractShellInfo.lines_str. rewrite line_list_of_strs.
  apply bool_decide_ext. rewrite merge_sort_Permutation. apply elem_of_elements.
Qed.

End LineListRoundTrip.

(** X9.  The list of line numbers that [extract_shell_info.py] writes for
    a set is read back by [is_line_modified] as that set: a line is
    modified exactly when it belongs to it. *)
Theorem written_line_list_read_back (file_path : string) (line_num : Z) (s : gset Z) :
  Py.int (Py.str line_num) = Some line_num /\
  RunShellcheck.is_line_modified file_path line_num (ExtractShellInfo.lines_str s)
    = bool_decide (line_num ∈ s).
Proof. split; [apply int_str|apply is_line_modified_lines_str]. Qed.


(** ** From [extract_shell_info.py] to [run_shellcheck.py]: the two files *)

Section FileRoundTrip.

Lemma rev_app_rev_app (a b c : string) :
  String.rev_app (String.rev_app a b) c = String.rev_app b (a +:+ c).
Proof.
  revert b c; induction a as [|x a IH]; intros b c; simpl; [reflexivity|].
  rewrite IH. reflexivity.
Qed.

Lemma all_chars_rev_app (p : ascii -> bool) (a b : string) :
  all_chars p (String.rev_app a b) = all_chars p a && all_chars p b.
Proof.
  revert b; induction a as [|x a IH]; intros b; simpl; [reflexivity|].
  rewrite IH. simpl. rewrite !andb_assoc. f_equal. apply andb_comm.
Qed.

Lemma lines_go_one (x cur rest : string) :
  all_chars Py.isdot x = true ->
  Py.lines_go cur (x +:+ String Py.LF rest)
    = String.rev (String Py.LF (String.rev_app x cur)) :: Py.lines_go "" rest.
Proof.
  revert cur; induction x as [|c x IH]; intros cur; simpl.
  - intros _. reflexivity.
  - unfold Py.isdot at 1. intros [Hc Hx]%andb_true_iff.
    apply negb_true_iff in Hc. rewrite Hc. apply IH, Hx.
Qed.

(** A text written line by line reads back as those lines. *)
Lemma file_lines_written (l : list string) :
  Forall (fun x => all_chars Py.isdot x = true) l ->
  Py.file_lines (Py.join "" (map (fun x => x +:+ String Py.LF "") l))
    = map (fun x => x +:+ String Py.LF "") l.
Proof.
  unfold Py.file_lines. induction l as [|x l IH]; intros Hl; [reflexivity|].
  inversion Hl as [|? ? Hx Hrest]; subst.
  rewrite map_cons, join_cons, app_assoc_s. change ("" +:+ ?y) with y.
  change (String Py.LF "" +:+ ?y) with (String Py.LF y).
  rewrite lines_go_one by exact Hx. rewrite IH by exact Hrest. f_equal.
  unfold String.rev. simpl. rewrite rev_app_rev_app. reflexivity.
Qed.

Lemma rstrip_snoc_space (s : string) (c : ascii) :
  Py.isspace c = true -> Py.rstrip (s +:+ String c "") = Py.rstrip s.
Proof.
  intros Hc. induction s as [|x s IH]; simpl; [rewrite Hc; reflexivity|].
  rewrite IH. reflexivity.
Qed.

Lemma clean_path_head (s : string) :
  clean_path s -> exists c r, s = String c r /\ Py.isspace c = false /\ Py.rstrip s = s.
Proof.
  intros (Hs & Ht & _). destruct (lstrip_head s) as [E|(c & r & E & Hc)].
  - unfold Py.strip in Hs. rewrite E in Hs. simpl in Hs. subst s. discriminate.
  - unfold Py.strip in Hs. rewrite E in Hs. simpl in Hs. rewrite Hc in Hs. simpl in Hs.
    exists c, (Py.rstrip r). split; [symmetry; exact Hs|]. split; [exact Hc|].
    rewrite <- Hs at 1. simpl. rewrite Hc. simpl. rewrite rstrip_idem. exact Hs.
Qed.

Lemma strip_clean_line (s : string) :
  clean_path s -> Py.strip (s +:+ String Py.LF "") = s.
Proof.
  intros Hs. destruct (clean_path_head s Hs) as (c & r & E & Hc & Hr).
  unfold Py.strip. rewrite E at 1. simpl Py.lstrip. rewrite Hc.
  change (String c (r +:+ String Py.LF "")) with (String c r +:+ String Py.LF "").
  rewrite <- E. rewrite rstrip_snoc_space by reflexivity. exact Hr.
Qed.

Lemma lf_only_last_tail (c : ascii) (s : string) :
  lf_only_last (String c s) = true -> lf_only_last s = true.
Proof. simpl. destruct s; [reflexivity|]. intros [_ H]%andb_true_iff. exact H. Qed.

Lemma lstrip_lf_only_last (s : string) :
  lf_only_last s = true -> lf_only_last (Py.lstrip s) = true.
Proof.
  induction s as [|c s IH]; [reflexivity|]. intros H. simpl Py.lstrip.
  destruct (Py.isspace c); [apply IH, (lf_only_last_tail c s H)|exact H].
Qed.

Lemma LF_is_space (c : ascii) : Py.isspace c = false -> Py.isdot c = true.
Proof. destruct c as [[] [] [] [] [] [] [] []]; vm_compute; congruence. Qed.

Lemma rstrip_lf_only_last (s : string) :
  lf_only_last s = true -> all_chars Py.isdot (Py.rstrip s) = true.
Proof.
  induction s as [|c s IH]; [reflexivity|]. intros H.
  pose proof (lf_only_last_tail c s H) as Hs. specialize (IH Hs).
  simpl Py.rstrip. destruct (Py.isspace c && negb (Py.truthy (Py.rstrip s))) eqn:E;
    [reflexivity|].
  simpl. rewrite IH, andb_true_r. destruct s as [|d s].
  - simpl in E. rewrite andb_true_r in E. apply LF_is_space, E.
  - simpl in H. apply andb_true_iff in H as [H _]. exact H.
Qed.

Lemma all_dot_lf_only_last (s : string) :
  all_chars Py.isdot s = true -> lf_only_last s = true.
Proof.
  induction s as [|c s IH]; [reflexivity|]. simpl.
  intros [Hc Hs]%andb_true_iff. destruct s; [reflexivity|].
  rewrite Hc. apply IH, Hs.
Qed.

Lemma rev_app_lf_only_last (a b : string) :
  all_chars Py.isdot a = true -> lf_only_last b = true ->
  lf_only_last (String.rev_app a b) = true.
Proof.
  revert b; induction a as [|x a IH]; intros b; simpl; [auto|].
  intros [Hx Ha]%andb_true_iff Hb. apply IH; [exact Ha|].
  simpl. destruct b; [reflexivity|]. rewrite Hx. exact Hb.
Qed.

Lemma lines_go_lf_only_last (s cur : string) :
  all_chars Py.isdot cur = true ->
  Forall (fun l => lf_only_last l = true) (Py.lines_go cur s).
Proof.
  revert cur; induction s as [|c s IH]; intros cur Hcur; simpl.
  - destruct cur as [|x cur]; constructor; [|constructor].
    apply all_dot_lf_only_last. unfold String.rev.
    rewrite all_chars_rev_app, Hcur. reflexivity.
  - destruct (Ascii.eqb c Py.LF) eqn:Hc.
    + constructor; [|apply IH; reflexivity].
      unfold String.rev. simpl. apply rev_app_lf_only_last; [exact Hcur|reflexivity].
    + apply IH. simpl. unfold Py.isdot at 1. rewrite Hc. exact Hcur.
Qed.

(** The paths read from the changeset are clean. *)
Lemma changed_files_clean (content : string) :
  Forall clean_path (ExtractShellInfo.changed_files_of content).
Proof.
  unfold ExtractShellInfo.changed_files_of. apply Forall_forall.
  intros x [line [<- [Hin Ht]%filter_In]]%list_elem_of_In%in_map_iff.
  split; [apply strip_idem|]. split; [exact Ht|].
  unfold Py.strip. apply rstrip_lf_only_last, lstrip_lf_only_last.
  pose proof (lines_go_lf_only_last content "" eq_refl) as H.
  rewrite Forall_forall in H. apply H, list_elem_of_In, Hin.
Qed.

Lemma read_back_clean_paths (l : list string) :
  Forall clean_path l ->
  map Py.strip
    (List.filter (fun line => Py.truthy (Py.strip line))
       (Py.file_lines (ExtractShellInfo.scripts_text l))) = l.
Proof.
  intros Hl. unfold ExtractShellInfo.scripts_text.
  rewrite file_lines_written.
  - induction Hl as [|x l Hx Hl IH]; [reflexivity|].
    simpl. rewrite (strip_clean_line x Hx).
    pose proof Hx as (_ & Ht & _). rewrite Ht. simpl.
    rewrite (strip_clean_line x Hx). f_equal. exact IH.
  - eapply Forall_impl; [exact Hl|]. intros x (_ & _ & H). exact H.
Qed.

End FileRoundTrip.

Section MapRoundTrip.
Import ExtractShellInfo.

Lemma map_entry_shape (modified : gmap string (gset Z)) (script : string) :
  map_entry modified script
    = (script +:+ ":" +:+ map_value modified script) +:+ String Py.LF "".
Proof.
  unfold map_entry, map_value. destruct (has_lines modified script).
  - rewrite !app_assoc_s. reflexivity.
  - rewrite !app_assoc_s. reflexivity.
Qed.

Lemma truthy_app_l (a b : string) : Py.truthy a = true -> Py.truthy (a +:+ b) = true.
Proof. destruct a; [discriminate|reflexivity]. Qed.

Lemma truthy_join (sep x : string) (l : list string) :
  Py.truthy x = true -> Py.truthy (Py.join sep (x :: l)) = true.
Proof. intros Hx. destruct l; [exact Hx|]. apply truthy_app_l, Hx. Qed.

Lemma map_value_chars (modified : gmap string (gset Z)) (script : string) :
  Py.truthy (map_value modified script) = true /\
  all_chars nonspace (map_value modified script) = true /\
  all_chars Py.isdot (map_value modified script) = true.
Proof.
  unfold map_value, has_lines.
  destruct (modified !! script) as [s|]; [|repeat split; reflexivity]. simpl.
  destruct (bool_decide (s <> ∅)) eqn:E; [|repeat split; reflexivity].
  apply bool_decide_eq_true in E. split; [|split].
  - unfold lines_str.
    destruct (merge_sort Z.le (elements s)) as [|z zs] eqn:Hs.
    + exfalso. apply E, leibniz_equiv, elements_empty_inv.
      apply Permutation_nil_r. rewrite <- Hs. symmetry. apply merge_sort_Permutation.
    + simpl map. apply truthy_join, str_chars.
  - generalize (lines_str_chars s). apply all_chars_impl.
    intros c Hc. apply listchar_facts, Hc.
  - generalize (lines_str_chars s). apply all_chars_impl.
    intros c Hc. apply listchar_facts, Hc.
Qed.

Lemma entry_body_clean (modified : gmap string (gset Z)) (script : string) :
  clean_path script ->
  clean_path (script +:+ ":" +:+ map_value modified script).
Proof.
  intros Hs. destruct (clean_path_head script Hs) as (c & r & E & Hc & _).
  destruct (map_value_chars modified script) as (Ht & Hns & Hdot).
  destruct (map_value modified script) as [|v0 v] eqn:Hv; [discriminate|].
  split; [|split].
  - unfold Py.strip. rewrite E at 1. simpl Py.lstrip. rewrite Hc.
    change (String c (r +:+ ?x)) with (String c r +:+ x).
    rewrite <- E. change (String ":" ?x) with (":" +:+ x). rewrite <- app_assoc_s.
    simpl in Hns. apply andb_true_iff in Hns as [Hv0 Hv'].
    apply negb_true_iff in Hv0.
    rewrite rstrip_app_keep by exact Hv0. rewrite rstrip_nonspace by exact Hv'.
    rewrite app_assoc_s. reflexivity.
  - apply truthy_app_l, Hs.
  - destruct Hs as (_ & _ & Hd). rewrite !all_chars_app, Hd, Hdot. reflexivity.
Qed.

Lemma split_once_first_colon (k v : string) :
  all_chars noncolon k = true -> Py.split_once ":" (k +:+ String ":" v) = (k, v).
Proof.
  induction k as [|c k IH]; simpl; [reflexivity|].
  unfold noncolon at 1. intros [Hc Hk]%andb_true_iff. apply negb_true_iff in Hc.
  rewrite Hc, IH by exact Hk. reflexivity.
Qed.

(** A line [key:value] of the map file, with a key free of colons, binds
    the key to the value. *)
Lemma load_line_entry (m : gmap string string) (modified : gmap string (gset Z))
    (script : string) :
  clean_path script -> all_chars noncolon script = true ->
  RunShellcheck.load_line m (map_entry modified script)
    = <[script := map_value modified script]> m.
Proof.
  intros Hs Hcolon. unfold RunShellcheck.load_line.
  rewrite map_entry_shape, (strip_clean_line _ (entry_body_clean modified script Hs)).
  rewrite (proj2 (contains_spec _ ":")) by eauto.
  change (":" +:+ ?x) with (String ":" x).
  rewrite split_once_first_colon by exact Hcolon. reflexivity.
Qed.

Lemma load_entries (modified : gmap string (gset Z)) (scripts : list string)
    (m : gmap string string) (f : string) :
  Forall (fun s => clean_path s /\ all_chars noncolon s = true) scripts ->
  f ∈ scripts ->
  fold_left RunShellcheck.load_line (map (map_entry modified) scripts) m !! f
    = Some (map_value modified f).
Proof.
  intros Hl. revert m. induction scripts as [|s scripts IH] using rev_ind; intros m Hf.
  - apply elem_of_nil in Hf. contradiction.
  - apply Forall_app in Hl as [Hl Hs]. inversion Hs as [|? ? [Hc Hn] _]; subst.
    rewrite map_app, fold_left_app. simpl. rewrite load_line_entry by assumption.
    destruct (decide (f = s)) as [->|Hne].
    + apply lookup_insert_eq.
    + rewrite lookup_insert_ne by congruence. apply IH; [exact Hl|].
      apply elem_of_app in Hf as [Hf|Hf]; [exact Hf|].
      apply list_elem_of_singleton in Hf. contradiction.
Qed.

Lemma map_file_lines (modified : gmap string (gset Z)) (scripts : list string) :
  Forall clean_path scripts ->
  Py.file_lines (Py.join "" (map (map_entry modified) scripts))
    = map (map_entry modified) scripts.
Proof.
  intros Hl.
  assert (map (map_entry modified) scripts
          = map (fun x => x +:+ String Py.LF "")
              (map (fun s => s +:+ ":" +:+ map_value modified s) scripts)) as ->.
  { rewrite map_map. apply map_ext. intros s. apply map_entry_shape. }
  apply file_lines_written. apply Forall_forall.
  intros x [s [<- Hs]]%list_elem_of_In%in_map_iff.
  rewrite Forall_forall in Hl.
  apply (entry_body_clean modified s), Hl, list_elem_of_In, Hs.
Qed.

End MapRoundTrip.

(** X10.  [run_shellcheck.py] reads back from [shell_scripts.txt] exactly
    the list of shell scripts that [extract_shell_info.py] wrote to it. *)
Theorem shell_scripts_file_read_back
    (shellcheck : option (gmap string string -> string -> string * string))
    (fs : gmap string string) (content shell_scripts_file : string) (w : Sys.World) :
  let scripts :=
    List.filter (ExtractShellInfo.is_shell_script fs)
      (ExtractShellInfo.changed_files_of content) in
  Sys.files w !! shell_scripts_file = Some (ExtractShellInfo.scripts_text scripts) ->
  RunShellcheck.run_shellcheck_on_files shellcheck shell_scripts_file w
    = RunShellcheck.check_scripts shellcheck scripts [] w.
Proof.
  intros scripts Hfile.
  unfold RunShellcheck.run_shellcheck_on_files, Sys.bind at 1, Sys.read_file.
  rewrite Hfile. rewrite read_back_clean_paths; [reflexivity|].
  apply Forall_forall. intros x [Hx _]%list_elem_of_In%filter_In.
  pose proof (changed_files_clean content) as H. rewrite Forall_forall in H.
  apply H, list_elem_of_In, Hx.
Qed.

Lemma shell_scripts_file_read_back_witness :
  RunShellcheck.run_shellcheck_on_files None "shell_scripts.txt"
    (Sys.mkWorld {["shell_scripts.txt" := "a.sh" +:+ String Py.LF ("b.bash" +:+ String Py.LF "")]} [] [])
  = RunShellcheck.check_scripts None ["a.sh"; "b.bash"] []
      (Sys.mkWorld {["shell_scripts.txt" := "a.sh" +:+ String Py.LF ("b.bash" +:+ String Py.LF "")]} [] []).
Proof.
  change ["a.sh"; "b.bash"]
    with (List.filter (ExtractShellInfo.is_shell_script ∅)
            (ExtractShellInfo.changed_files_of
               (" a.sh " +:+ String Py.LF ("notes.txt" +:+ String Py.LF "b.bash")))).
  apply (shell_scripts_file_read_back None ∅
           (" a.sh " +:+ String Py.LF ("notes.txt" +:+ String Py.LF "b.bash"))
           "shell_scripts.txt").
  reflexivity.
Defined.

(** X11.  [run_shellcheck.py] loads from the map file that
    [extract_shell_info.py] wrote, for each script free of colons, the
    value written for it: [all], or the list of its modified lines. *)
Theorem map_file_read_back
    (modified : gmap string (gset Z)) (scripts : list string)
    (fs : gmap string string) (map_file script : string) :
  Forall (fun s => clean_path s /\ all_chars noncolon s = true) scripts ->
  fs !! map_file = Some (Py.join "" (map (ExtractShellInfo.map_entry modified) scripts)) ->
  script ∈ scripts ->
  (loaded_map fs map_file).1 !! script = Some (map_value modified script).
Proof.
  intros Hl Hfile Hin. unfold loaded_map. rewrite Hfile. simpl.
  rewrite map_file_lines.
  - apply load_entries; assumption.
  - eapply Forall_impl; [exact Hl|]. intros x [H _]. exact H.
Qed.

Lemma map_file_read_back_witness :
  (loaded_map
     {["modified_lines_map.txt" :=
         "a.sh:all" +:+ String Py.LF ("b.sh:3,12" +:+ String Py.LF "")]}
     "modified_lines_map.txt").1 !! "b.sh" = Some "3,12".
Proof.
  etransitivity.
  apply (map_file_read_back {["b.sh" := {[12; 3]}]} ["a.sh"; "b.sh"]
           {["modified_lines_map.txt" :=
               "a.sh:all" +:+ String Py.LF ("b.sh:3,12" +:+ String Py.LF "")]}
           "modified_lines_map.txt" "b.sh").
  4: vm_compute; reflexivity.
  - repeat constructor.
  - vm_compute. reflexivity.
  - apply list_elem_of_further, list_elem_of_here.
Defined.

(** X12.  Through the map file, a finding on line [n] of a listed script
    is kept by [run_shellcheck.py] exactly when [extract_shell_info.py]
    found no modified line for the script, or found line [n]. *)
Theorem finding_kept_iff_line_in_diff
    (modified : gmap string (gset Z)) (scripts : list string)
    (fs : gmap string string) (map_file script line : string) (n : Z) :
  Forall (fun s => clean_path s /\ all_chars noncolon s = true) scripts ->
  fs !! map_file = Some (Py.join "" (map (ExtractShellInfo.map_entry modified) scripts)) ->
  script ∈ scripts ->
  finding_at line script n ->
  on_modified_line (loaded_map fs map_file).1 line
    = if ExtractShellInfo.has_lines modified script
      then bool_decide (n ∈ default ∅ (modified !! script))
      else true.
Proof.
  intros Hl Hfile Hin Hf.
  rewrite (on_modified_line_finding _ line script n Hf).
  assert ((loaded_map fs map_file).1 !! script = Some (map_value modified script)) as ->.
  { unfold loaded_map. rewrite Hfile. simpl. rewrite map_file_lines.
    - apply load_entries; assumption.
    - eapply Forall_impl; [exact Hl|]. intros x [H _]. exact H. }
  simpl. destruct (map_value_chars modified script) as (Ht & _). rewrite Ht. simpl.
  unfold map_value. destruct (ExtractShellInfo.has_lines modified script).
  - apply is_line_modified_lines_str.
  - reflexivity.
Qed.

Lemma finding_kept_iff_line_in_diff_witness :
  on_modified_line
    (loaded_map
       {["modified_lines_map.txt" :=
           "a.sh:all" +:+ String Py.LF ("b.sh:3,12" +:+ String Py.LF "")]}
       "modified_lines_map.txt").1
    "b.sh:4:1: note: x [SC2034]" = false.
Proof.
  etransitivity.
  apply (finding_kept_iff_line_in_diff {["b.sh" := {[12; 3]}]} ["a.sh"; "b.sh"]
           {["modified_lines_map.txt" :=
               "a.sh:all" +:+ String Py.LF ("b.sh:3,12" +:+ String Py.LF "")]}
           "modified_lines_map.txt" "b.sh" "b.sh:4:1: note: x [SC2034]" 4).
  5: vm_compute; reflexivity.
  - repeat constructor.
  - vm_compute. reflexivity.
  - apply list_elem_of_further, list_elem_of_here.
  - exists "4". split; reflexivity.
Defined.


(** ** [extract_shell_info.py]: the whole run *)

Section ExtractRun.
Import Sys ExtractShellInfo.

Lemma write_map_world (modified : gmap string (gset Z)) (scripts : list string)
    (written : string) (w : World) :
  write_map modified scripts written w =
    (Ret (written +:+ Py.join "" (map (map_entry modified) scripts)),
     mkWorld (files w) (stdout w ++ map_progress modified scripts) (stderr w)).
Proof.
  revert written w; induction scripts as [|script scripts IH]; intros written w.
  - simpl. unfold ret. rewrite app_nil_r, app_empty_r. destruct w; reflexivity.
  - cbn [write_map map]. rewrite join_snoc. unfold bind at 1 2. unfold print at 1.
    unfold map_progress. cbn [flat_map]. fold (map_progress modified scripts).
    destruct (has_lines modified script); unfold print at 1; rewrite IH;
      cbn [files stdout stderr]; rewrite <- !app_assoc; reflexivity.
Qed.

(** [main] on an existing changeset, in full. *)
Lemma extract_main_world (prog changeset_file diff_file content : string) (w : World) :
  files w !! changeset_file = Some content ->
  let scripts := List.filter (is_shell_script (files w)) (changed_files_of content) in
  let fs := <["shell_scripts.txt" := scripts_text scripts]> (files w) in
  let modified := diff_of fs diff_file in
  main [prog; changeset_file; diff_file] w =
    (Ret tt,
     mkWorld
       (<["modified_lines_map.txt" := Py.join "" (map (map_entry modified) scripts)]> fs)
       (stdout w ++ listing modified scripts)
       (stderr w ++
        match scripts, fs !! diff_file with
        | _ :: _, None => ["Error: " +:+ diff_file +:+ " not found"]
        | _, _ => []
        end)).
Proof.
  intros Hcs scripts fs modified.
  unfold main, bind at 1, read_file at 1. rewrite Hcs.
  unfold bind at 1, get_files. fold scripts.
  unfold bind at 1, write_file at 1. cbn [files stdout stderr]. fold fs.
  destruct scripts as [|s0 scripts'] eqn:Hs.
  - unfold bind, print, write_file. cbn [files stdout stderr].
    rewrite app_nil_r, <- app_assoc. reflexivity.
  - unfold bind at 1, print at 1. cbn [files stdout stderr].
    unfold bind at 1. rewrite print_all_spec. cbn [files stdout stderr].
    unfold bind at 1, print at 1. cbn [files stdout stderr].
    unfold bind at 1, parse_diff_file, bind at 1, read_file. cbn [files stdout stderr].
    unfold modified, diff_of.
    destruct (fs !! diff_file) as [d|].
    + unfold ret at 1. unfold bind at 1. rewrite write_map_world.
      unfold write_file. cbn [files stdout stderr listing].
      rewrite app_nil_r, <- !app_assoc. reflexivity.
    + unfold bind at 1, eprint, ret at 1. unfold bind at 1. rewrite write_map_world.
      unfold write_file. cbn [files stdout stderr listing].
      rewrite <- !app_assoc. reflexivity.
Qed.

Lemma head_is_not_in (c : ascii) (line : string) (l : list string) :
  Forall (fun x => head_is_not c x = true) l ->
  head_is_not c line = false -> line ∉ l.
Proof.
  intros Hl Hline Hin. rewrite Forall_forall in Hl.
  rewrite (Hl line Hin) in Hline. discriminate.
Qed.

Lemma map_progress_heads (modified : gmap string (gset Z)) (scripts : list string) :
  Forall (fun x => head_is_not "h" x = true) (map_progress modified scripts).
Proof.
  unfold map_progress. induction scripts as [|s scripts IH]; [constructor|].
  cbn [flat_map app]. constructor; [reflexivity|].
  constructor; [|exact IH]. destruct (has_lines modified s); reflexivity.
Qed.

Lemma listing_flags (modified : gmap string (gset Z)) (scripts : list string) :
  ("has_shell_scripts=true" ∈ listing modified scripts <-> scripts <> []) /\
  ("has_shell_scripts=false" ∈ listing modified scripts <-> scripts = []).
Proof.
  destruct scripts as [|s scripts].
  - split; split; try congruence.
    + intros H. simpl in H.
      apply elem_of_cons in H as [H|H]; [discriminate|].
      apply list_elem_of_singleton in H. discriminate.
    + intros _. simpl. apply list_elem_of_further, list_elem_of_here.
  - split; split; try congruence.
    + intros _. unfold listing. rewrite !elem_of_app. right. right. left.
      apply list_elem_of_here.
    + intros H. exfalso. unfold listing in H. rewrite !elem_of_app in H.
      destruct H as [H|[H|[H|H]]].
      * apply list_elem_of_singleton in H. discriminate.
      * apply list_elem_of_In, in_map_iff in H as (x & H & _). discriminate.
      * apply list_elem_of_singleton in H. discriminate.
      * revert H. apply (head_is_not_in "h"); [apply map_progress_heads|reflexivity].
Qed.

End ExtractRun.

(** X13.  On an existing changeset [main] returns; [shell_scripts.txt]
    holds the changed paths that are shell scripts, one per line and in
    the order of the changeset; it prints [has_shell_scripts=true] when
    there is one and [has_shell_scripts=false] when there is none, never
    both. *)
Theorem extract_main_lists_shell_scripts
    (prog changeset_file diff_file content : string) (w : Sys.World) :
  Sys.files w !! changeset_file = Some content ->
  let scripts :=
    List.filter (ExtractShellInfo.is_shell_script (Sys.files w))
      (ExtractShellInfo.changed_files_of content) in
  exists printed w',
    ExtractShellInfo.main [prog; changeset_file; diff_file] w = (Sys.Ret tt, w') /\
    Sys.files w' !! "shell_scripts.txt"
      = Some (Py.join "" (map (fun script => script +:+ String Py.LF "") scripts)) /\
    Sys.stdout w' = Sys.stdout w ++ printed /\
    ("has_shell_scripts=true" ∈ printed <-> scripts <> []) /\
    ("has_shell_scripts=false" ∈ printed <-> scripts = []).
Proof.
  intros Hcs scripts.
  pose proof (extract_main_world prog changeset_file diff_file content w Hcs) as H.
  cbv zeta in H. fold scripts in H.
  eexists _, _. split; [exact H|]. cbn [Sys.files Sys.stdout].
  split; [|split; [reflexivity|apply listing_flags]].
  rewrite lookup_insert_ne by discriminate. apply lookup_insert_eq.
Qed.

Lemma extract_main_lists_shell_scripts_witness :
  exists w',
    ExtractShellInfo.main ["extract_shell_info.py"; "changeset.txt"; "diff.txt"]
      (Sys.mkWorld {["changeset.txt" := "README.md
new.sh
"]} [] []) = (Sys.Ret tt, w') /\
    Sys.files w' !! "shell_scripts.txt" = Some ("new.sh" +:+ String Py.LF "").
Proof.
  destruct (extract_main_lists_shell_scripts
              "extract_shell_info.py" "changeset.txt" "diff.txt"
              "README.md
new.sh
" (Sys.mkWorld {["changeset.txt" := "README.md
new.sh
"]} [] []))
    as (printed & w' & Hmain & Hfile & _).
  - reflexivity.
  - exists w'. split; [exact Hmain|exact Hfile].
Defined.

(** X14.  When the changeset names no shell script, [main] leaves
    [shell_scripts.txt] and [modified_lines_map.txt] empty, prints nothing
    to the standard error and does not depend on the diff file. *)
Theorem extract_main_without_shell_script
    (prog changeset_file diff_file content : string) (w : Sys.World) :
  Sys.files w !! changeset_file = Some content ->
  List.filter (ExtractShellInfo.is_shell_script (Sys.files w))
    (ExtractShellInfo.changed_files_of content) = [] ->
  ExtractShellInfo.main [prog; changeset_file; diff_file] w =
    (Sys.Ret tt,
     Sys.mkWorld
       (<["modified_lines_map.txt" := ""]> (<["shell_scripts.txt" := ""]> (Sys.files w)))
       (Sys.stdout w ++ ["No shell scripts found in changeset"; "has_shell_scripts=false"])
       (Sys.stderr w)).
Proof.
  intros Hcs Hnone.
  rewrite (extract_main_world prog changeset_file diff_file content w Hcs).
  rewrite Hnone. simpl. rewrite app_nil_r. reflexivity.
Qed.

Lemma extract_main_without_shell_script_witness :
  ExtractShellInfo.main ["extract_shell_info.py"; "changeset.txt"; "diff.txt"]
    (Sys.mkWorld {["changeset.txt" := "README.md"]} [] []) =
    (Sys.Ret tt,
     Sys.mkWorld
       (<["modified_lines_map.txt" := ""]>
          (<["shell_scripts.txt" := ""]> {["changeset.txt" := "README.md"]}))
       ["No shell scripts found in changeset"; "has_shell_scripts=false"] []).
Proof.
  exact (extract_main_without_shell_script
           "extract_shell_info.py" "changeset.txt" "diff.txt" "README.md"
           (Sys.mkWorld {["changeset.txt" := "README.md"]} [] []) eq_refl eq_refl).
Defined.

(** X15.  When the diff file does not exist, [parse_diff_file] reports it
    on the standard error and returns no entry; [main] does not stop: it
    records [path:all] for every shell script. *)
Theorem extract_main_without_diff_file
    (prog changeset_file diff_file content : string) (w : Sys.World) :
  Sys.files w !! changeset_file = Some content ->
  Sys.files w !! diff_file = None ->
  diff_file <> "shell_scripts.txt" ->
  let scripts :=
    List.filter (ExtractShellInfo.is_shell_script (Sys.files w))
      (ExtractShellInfo.changed_files_of content) in
  scripts <> [] ->
  ExtractShellInfo.parse_diff_file diff_file w
    = (Sys.Ret ∅,
       Sys.mkWorld (Sys.files w) (Sys.stdout w)
         (Sys.stderr w ++ ["Error: " +:+ diff_file +:+ " not found"])) /\
  exists w',
    ExtractShellInfo.main [prog; changeset_file; diff_file] w = (Sys.Ret tt, w') /\
    Sys.stderr w' = Sys.stderr w ++ ["Error: " +:+ diff_file +:+ " not found"] /\
    Sys.files w' !! "modified_lines_map.txt"
      = Some (Py.join ""
                (map (fun script => script +:+ ":all" +:+ String Py.LF "") scripts)).
Proof.
  intros Hcs Hdiff Hne scripts Hsome. split.
  - unfold ExtractShellInfo.parse_diff_file, Sys.bind at 1, Sys.read_file.
    rewrite Hdiff. reflexivity.
  - pose proof (extract_main_world prog changeset_file diff_file content w Hcs) as H.
    cbv zeta in H. fold scripts in H.
    eexists. split; [exact H|]. cbn [Sys.files Sys.stderr].
    unfold diff_of. rewrite lookup_insert_ne, Hdiff by congruence.
    destruct scripts as [|s scripts']; [contradiction|].
    split; [reflexivity|]. rewrite lookup_insert_eq. reflexivity.
Qed.

Lemma extract_main_without_diff_file_witness :
  exists w',
    ExtractShellInfo.main ["extract_shell_info.py"; "changeset.txt"; "diff.txt"]
      (Sys.mkWorld {["changeset.txt" := "a.sh"]} [] []) = (Sys.Ret tt, w') /\
    Sys.stderr w' = ["Error: diff.txt not found"].
Proof.
  destruct (extract_main_without_diff_file
              "extract_shell_info.py" "changeset.txt" "diff.txt" "a.sh"
              (Sys.mkWorld {["changeset.txt" := "a.sh"]} [] []))
    as (_ & w' & Hmain & Herr & _).
  - reflexivity.
  - reflexivity.
  - discriminate.
  - discriminate.
  - exists w'. split; [exact Hmain|exact Herr].
Defined.

(** X16.  Called with a number of arguments other than two, either script
    prints its usage line to the standard error and exits with status 1,
    without printing to the standard output or writing a file. *)
Theorem wrong_argument_count_exits
    (shellcheck : option (gmap string string -> string -> string * string))
    (argv : list string) (w : Sys.World) :
  length argv <> 3%nat ->
  ExtractShellInfo.main argv w =
    (Sys.Exit 1,
     Sys.mkWorld (Sys.files w) (Sys.stdout w)
       (Sys.stderr w ++
        ["Usage: python3 extract_shell_info.py <changeset_file> <diff_file>"])) /\
  RunShellcheck.main shellcheck argv w =
    (Sys.Exit 1,
     Sys.mkWorld (Sys.files w) (Sys.stdout w)
       (Sys.stderr w ++
        ["Usage: python3 run_shellcheck.py <shell_scripts_file> <modified_lines_map_file>"])).
Proof.
  intros Hlen.
  destruct argv as [|a0 [|a1 [|a2 [|a3 rest]]]]; try (split; reflexivity).
  contradiction Hlen. reflexivity.
Qed.

Lemma wrong_argument_count_exits_witness :
  Sys.exit_status (ExtractShellInfo.main ["extract_shell_info.py"] (Sys.mkWorld ∅ [] [])).1 = 1.
Proof.
  rewrite (proj1 (wrong_argument_count_exits None ["extract_shell_info.py"]
                    (Sys.mkWorld ∅ [] []) ltac:(discriminate))).
  reflexivity.
Defined.


(** ** [run_shellcheck.py]: the whole run *)

Section RunWorld.
Import Sys RunShellcheck.
Variable shellcheck : option (gmap string string -> string -> string * string).

(** [main] with its two arguments, in full, from what running the linter
    gave. *)
Lemma run_main_world (prog shell_scripts_file map_file : string) (w : World)
    (raw : string) (out err : list string) :
  run_shellcheck_on_files shellcheck shell_scripts_file
    (mkWorld (files w) (stdout w ++ [banner]) (stderr w))
    = (Ret raw, mkWorld (files w) ((stdout w ++ [banner]) ++ out) (stderr w ++ err)) ->
  let filtered := filter_trivial_issues raw in
  let fs :=
    <["shellcheck_filtered.txt" := Py.join (String Py.LF "") filtered]>
      (<["shellcheck_raw.txt" := raw]> (files w)) in
  let dfl := List.filter (on_modified_line (loaded_map fs map_file).1) filtered in
  exists progress,
    main shellcheck [prog; shell_scripts_file; map_file] w =
      (Ret tt,
       mkWorld
         (<["shellcheck_results.txt" := Py.join (String Py.LF "") dfl]>
            (<["shellcheck_diff_filtered.txt" := Py.join (String Py.LF "") dfl]> fs))
         (stdout w ++ [banner] ++ out ++ progress
          ++ [verdict_line (length dfl)] ++ summary (length dfl))
         (stderr w ++ err ++ (loaded_map fs map_file).2)).
Proof.
  intros Hrun filtered fs dfl.
  unfold main. unfold bind at 1, print at 1. unfold bind at 1.
  fold banner. rewrite Hrun. cbn [files stdout stderr].
  unfold bind at 1, write_file at 1. cbn [files stdout stderr].
  unfold bind at 1, write_file at 1. cbn [files stdout stderr].
  unfold bind at 1. rewrite load_modified_lines_map_spec. cbn [files stdout stderr].
  fold filtered. fold fs.
  unfold bind at 1.
  match goal with |- context [diff_filter ?m ?l ?a ?w1] =>
    destruct (diff_filter_spec m l a w1) as [progress ->] end.
  cbn [files stdout stderr app]. fold dfl.
  unfold bind at 1, write_file at 1. cbn [files stdout stderr].
  exists progress. unfold verdict_line, summary.
  destruct (0 <? Z.of_nat (length dfl)) eqn:Hpos.
  - unfold bind, print, write_file. cbn [files stdout stderr].
    rewrite <- !app_assoc. reflexivity.
  - assert (dfl = []) as Hnil.
    { destruct dfl; [reflexivity|]. simpl in Hpos. discriminate. }
    unfold bind, print, write_file. cbn [files stdout stderr].
    rewrite Hnil. cbn [Py.join]. rewrite <- !app_assoc. reflexivity.
Qed.


End RunWorld.

Section LinterAbsent.
Import Sys RunShellcheck.

Lemma check_scripts_none (scripts : list string) (w : World) :
  exists out err,
    check_scripts None scripts [] w =
      (Ret "", mkWorld (files w) (stdout w ++ out) (stderr w ++ err)) /\
    (Exists (fun script => Py.truthy script && isfile (files w) script = true) scripts ->
     err = ["Error: shellcheck command not found"]).
Proof.
  revert w; induction scripts as [|script scripts IH]; intros w.
  - exists [], []. split.
    + simpl. unfold ret. rewrite !app_nil_r. destruct w; reflexivity.
    + intros H. inversion H.
  - cbn [check_scripts]. unfold bind at 1, get_files.
    destruct (Py.truthy script && isfile (files w) script) eqn:E.
    + unfold bind, print, eprint, ret. cbn [files stdout stderr].
      eexists _, _. split; [reflexivity|]. reflexivity.
    + destruct (IH w) as (out & err & -> & Herr).
      exists out, err. split; [reflexivity|].
      intros H. apply Herr. inversion H as [? ? H1|? ? H1]; subst; [congruence|exact H1].
Qed.

End LinterAbsent.


(** X18.  When the [shellcheck] command is not installed, [main] still
    returns: the four output files are empty and the summary reports no
    issue. *)
Theorem run_main_without_linter
    (prog shell_scripts_file map_file : string) (w : Sys.World) :
  exists printed w',
    RunShellcheck.main None [prog; shell_scripts_file; map_file] w = (Sys.Ret tt, w') /\
    Sys.files w' !! "shellcheck_raw.txt" = Some "" /\
    Sys.files w' !! "shellcheck_filtered.txt" = Some "" /\
    Sys.files w' !! "shellcheck_diff_filtered.txt" = Some "" /\
    Sys.files w' !! "shellcheck_results.txt" = Some "" /\
    Sys.stdout w' =
      printed ++ ["No non-trivial ShellCheck issues found on modified lines";
                  "total_issues=0"; "exit_code=0"].
Proof.
  assert (exists out err,
    RunShellcheck.run_shellcheck_on_files None shell_scripts_file
      (Sys.mkWorld (Sys.files w) (Sys.stdout w ++ [banner]) (Sys.stderr w))
    = (Sys.Ret "",
       Sys.mkWorld (Sys.files w) ((Sys.stdout w ++ [banner]) ++ out) (Sys.stderr w ++ err)))
    as (out & err & Hrun).
  { unfold RunShellcheck.run_shellcheck_on_files, Sys.bind at 1, Sys.read_file.
    cbn [Sys.files]. destruct (Sys.files w !! shell_scripts_file) as [content|].
    - match goal with |- context [RunShellcheck.check_scripts None ?l [] ?w1] =>
        destruct (check_scripts_none l w1) as (out & err & -> & _) end.
      eexists _, _. reflexivity.
    - unfold Sys.bind, Sys.eprint, Sys.ret. cbn [Sys.files Sys.stdout Sys.stderr].
      exists [], ["Error: " +:+ shell_scripts_file +:+ " not found"].
      rewrite app_nil_r. reflexivity. }
  destruct (run_main_world None prog shell_scripts_file map_file w "" out err Hrun)
    as [progress Hmain].
  change (RunShellcheck.filter_trivial_issues "") with (@nil string) in Hmain.
  cbn [List.filter length Py.join] in Hmain.
  eexists (Sys.stdout w ++ [banner] ++ out ++ progress), _.
  split; [exact Hmain|]. cbn [Sys.files Sys.stdout].
  repeat split.
  - rewrite !lookup_insert_ne by discriminate. apply lookup_insert_eq.
  - rewrite !lookup_insert_ne by discriminate. apply lookup_insert_eq.
  - rewrite !lookup_insert_ne by discriminate. apply lookup_insert_eq.
  - apply lookup_insert_eq.
  - rewrite <- !app_assoc. reflexivity.
Qed.

(** X19.  When the [shellcheck] command is not installed and the list
    names an existing file, [run_shellcheck_on_files] says so on the
    standard error, once, and returns the empty output without raising. *)
Theorem missing_linter_is_reported
    (shell_scripts_file content script : string) (w : Sys.World) :
  Sys.files w !! shell_scripts_file = Some content ->
  script ∈ listed_scripts content ->
  script <> "" ->
  is_Some (Sys.files w !! script) ->
  exists out,
    RunShellcheck.run_shellcheck_on_files None shell_scripts_file w
      = (Sys.Ret "",
         Sys.mkWorld (Sys.files w) (Sys.stdout w ++ out)
           (Sys.stderr w ++ ["Error: shellcheck command not found"])).
Proof.
  intros Hfile Hin Hne Hex.
  unfold RunShellcheck.run_shellcheck_on_files, Sys.bind at 1, Sys.read_file.
  rewrite Hfile. fold (listed_scripts content).
  destruct (check_scripts_none (listed_scripts content) w) as (out & err & -> & Herr).
  exists out. rewrite Herr; [reflexivity|].
  apply Exists_exists. exists script. split; [exact Hin|].
  apply andb_true_iff. split; [apply truthy_true, Hne|].
  unfold Sys.isfile. apply bool_decide_eq_true_2, Hex.
Qed.

Lemma missing_linter_is_reported_witness :
  exists out,
    RunShellcheck.run_shellcheck_on_files None "shell_scripts.txt"
      (Sys.mkWorld {["shell_scripts.txt" := "a.sh"; "a.sh" := "echo"]} [] [])
      = (Sys.Ret "",
         Sys.mkWorld {["shell_scripts.txt" := "a.sh"; "a.sh" := "echo"]} ([] ++ out)
           ([] ++ ["Error: shellcheck command not found"])).
Proof.
  destruct (missing_linter_is_reported "shell_scripts.txt" "a.sh" "a.sh"
              (Sys.mkWorld {["shell_scripts.txt" := "a.sh"; "a.sh" := "echo"]} [] []))
    as [out H].
  - reflexivity.
  - apply list_elem_of_here.
  - discriminate.
  - eexists. reflexivity.
  - exists out. exact H.
Defined.

(** X20.  When the list of shell scripts does not exist,
    [run_shellcheck_on_files] reports it on the standard error and
    returns the empty output; [main] goes on and reports no issue. *)
Theorem run_main_without_script_list
    (shellcheck : option (gmap string string -> string -> string * string))
    (prog shell_scripts_file map_file : string) (w : Sys.World) :
  Sys.files w !! shell_scripts_file = None ->
  RunShellcheck.run_shellcheck_on_files shellcheck shell_scripts_file w
    = (Sys.Ret "",
       Sys.mkWorld (Sys.files w) (Sys.stdout w)
         (Sys.stderr w ++ ["Error: " +:+ shell_scripts_file +:+ " not found"])) /\
  exists printed errors w',
    RunShellcheck.main shellcheck [prog; shell_scripts_file; map_file] w
      = (Sys.Ret tt, w') /\
    Sys.stderr w'
      = Sys.stderr w ++ ["Error: " +:+ shell_scripts_file +:+ " not found"] ++ errors /\
    Sys.stdout w' = printed ++ ["total_issues=0"; "exit_code=0"].
Proof.
  intros Hfile.
  assert (forall w0, Sys.files w0 !! shell_scripts_file = None ->
    RunShellcheck.run_shellcheck_on_files shellcheck shell_scripts_file w0
    = (Sys.Ret "",
       Sys.mkWorld (Sys.files w0) (Sys.stdout w0)
         (Sys.stderr w0 ++ ["Error: " +:+ shell_scripts_file +:+ " not found"]))) as Hrun.
  { intros w0 H0.
    unfold RunShellcheck.run_shellcheck_on_files, Sys.bind at 1, Sys.read_file.
    rewrite H0. reflexivity. }
  split; [apply Hrun, Hfile|].
  destruct (run_main_world shellcheck prog shell_scripts_file map_file w ""
              [] ["Error: " +:+ shell_scripts_file +:+ " not found"])
    as [progress Hmain].
  { rewrite Hrun by exact Hfile. cbn [Sys.files Sys.stdout Sys.stderr].
    rewrite app_nil_r. reflexivity. }
  change (RunShellcheck.filter_trivial_issues "") with (@nil string) in Hmain.
  cbn [List.filter length Py.join] in Hmain.
  eexists (Sys.stdout w ++ [banner] ++ [] ++ progress ++ [verdict_line 0]), _, _.
  split; [exact Hmain|]. cbn [Sys.stdout Sys.stderr].
  split; [reflexivity|]. rewrite <- !app_assoc. reflexivity.
Qed.

Lemma run_main_without_script_list_witness :
  RunShellcheck.run_shellcheck_on_files None "shell_scripts.txt" (Sys.mkWorld ∅ [] [])
    = (Sys.Ret "", Sys.mkWorld ∅ [] ["Error: shell_scripts.txt not found"]).
Proof.
  exact (proj1 (run_main_without_script_list None "run_shellcheck.py"
                  "shell_scripts.txt" "modified_lines_map.txt"
                  (Sys.mkWorld ∅ [] []) eq_refl)).
Defined.


(** ** [run_shellcheck.py]: more on the two filters *)

(** X21.  A line that is not in GCC format is never reported, whatever
    the map says: the findings kept are those of the input without it. *)
Theorem non_gcc_line_never_reported
    (m : gmap string string) (before after : list string) (w : Sys.World)
    (line : string) :
  RunShellcheck.gcc_format_match line = None ->
  exists diff_filtered_lines w' w'',
    RunShellcheck.diff_filter m (before ++ line :: after) [] w
      = (Sys.Ret diff_filtered_lines, w') /\
    (line ∉ diff_filtered_lines) /\
    RunShellcheck.diff_filter m (before ++ after) [] w
      = (Sys.Ret diff_filtered_lines, w'').
Proof.
  intros Hno.
  assert (on_modified_line m line = false) as Hoff
    by (unfold on_modified_line; rewrite Hno; reflexivity).
  destruct (diff_filter_spec m (before ++ line :: after) [] w) as [out ->].
  destruct (diff_filter_spec m (before ++ after) [] w) as [out' ->].
  eexists _, _, _. split; [reflexivity|]. simpl app. split.
  - rewrite list_elem_of_In, filter_In. intros [_ H]. congruence.
  - rewrite !List.filter_app. simpl List.filter. rewrite Hoff. reflexivity.
Qed.

Lemma non_gcc_line_never_reported_witness :
  exists diff_filtered_lines w' w'',
    RunShellcheck.diff_filter {["file.sh" := "all"]}
      ([] ++ ["In file.sh line 3:"]) [] (Sys.mkWorld ∅ [] [])
      = (Sys.Ret diff_filtered_lines, w') /\
    ("In file.sh line 3:" ∉ diff_filtered_lines) /\
    RunShellcheck.diff_filter {["file.sh" := "all"]} ([] ++ []) [] (Sys.mkWorld ∅ [] [])
      = (Sys.Ret diff_filtered_lines, w'').
Proof.
  apply (non_gcc_line_never_reported {["file.sh" := "all"]} [] []
           (Sys.mkWorld ∅ [] []) "In file.sh line 3:").
  reflexivity.
Defined.

(** X22.  Every finding in a file that the map records as [all] is
    reported, on whatever line it is. *)
Theorem finding_in_new_file_reported
    (m : gmap string string) (filtered_lines : list string) (w : Sys.World)
    (line file_path : string) (n : Z) :
  m !! file_path = Some "all" ->
  finding_at line file_path n ->
  line ∈ filtered_lines ->
  exists diff_filtered_lines w',
    RunShellcheck.diff_filter m filtered_lines [] w = (Sys.Ret diff_filtered_lines, w') /\
    line ∈ diff_filtered_lines.
Proof.
  intros Hm Hf Hin.
  destruct (diff_filter_spec m filtered_lines [] w) as [out ->].
  eexists _, _. split; [reflexivity|]. simpl app.
  rewrite list_elem_of_In, filter_In. split; [apply list_elem_of_In, Hin|].
  rewrite (on_modified_line_finding m line file_path n Hf), Hm. reflexivity.
Qed.

Lemma finding_in_new_file_reported_witness :
  exists diff_filtered_lines w',
    RunShellcheck.diff_filter {["new.sh" := "all"]}
      ["new.sh:40:1: warning: a [SC2086]"] [] (Sys.mkWorld ∅ [] [])
      = (Sys.Ret diff_filtered_lines, w') /\
    "new.sh:40:1: warning: a [SC2086]" ∈ diff_filtered_lines.
Proof.
  apply (finding_in_new_file_reported {["new.sh" := "all"]}
           ["new.sh:40:1: warning: a [SC2086]"] (Sys.mkWorld ∅ [] [])
           "new.sh:40:1: warning: a [SC2086]" "new.sh" 40).
  - reflexivity.
  - exists "40". split; reflexivity.
  - apply list_elem_of_here.
Defined.

Lemma filter_keeps_twice (l : list string) :
  List.filter keeps (List.filter keeps l) = List.filter keeps l.
Proof.
  induction l as [|x l IH]; [reflexivity|]. simpl.
  destruct (keeps x) eqn:E; [|exact IH]. simpl. rewrite E, IH. reflexivity.
Qed.

(** X23.  [shellcheck_filtered.txt] can be filtered again without loss:
    [filter_trivial_issues] applied to the text it was written as gives
    the same lines. *)
Theorem filter_trivial_issues_idempotent (shellcheck_output : string) :
  RunShellcheck.filter_trivial_issues
    (Py.join (String Py.LF "") (RunShellcheck.filter_trivial_issues shellcheck_output))
  = RunShellcheck.filter_trivial_issues shellcheck_output.
Proof.
  pose proof (filter_trivial_issues_lines shellcheck_output) as Hl.
  unfold RunShellcheck.filter_trivial_issues in *.
  rewrite !filter_trivial_loop in *. simpl app in *.
  destruct (List.filter keeps (Py.split Py.LF shellcheck_output)) as [|x l] eqn:E.
  - reflexivity.
  - rewrite split_join; [| |discriminate].
    + rewrite <- E. apply filter_keeps_twice.
    + eapply Forall_impl; [exact Hl|]. intros y [_ H]. exact H.
Qed.

(** X24.  Every path that [main] of [extract_shell_info.py] reads from the
    changeset is stripped, is not empty and holds no line feed: blank
    lines are skipped. *)
Theorem changeset_paths_clean (content path : string) :
  path ∈ ExtractShellInfo.changed_files_of content ->
  Py.strip path = path /\ path <> "" /\ all_chars Py.isdot path = true.
Proof.
  intros Hin. pose proof (changed_files_clean content) as H.
  rewrite Forall_forall in H. destruct (H path Hin) as (Hs & Ht & Hd).
  split; [exact Hs|]. split; [apply truthy_true, Ht|exact Hd].
Qed.

Lemma changeset_paths_clean_witness :
  Py.strip "a.sh" = "a.sh" /\ "a.sh" <> "" /\ all_chars Py.isdot "a.sh" = true.
Proof.
  apply (changeset_paths_clean ("  a.sh  " +:+ String Py.LF (String Py.LF "b.txt")) "a.sh").
  vm_compute. apply list_elem_of_here.
Defined.


(** * Worked examples *)

(** A diff with one hunk: two context lines, one deleted line and two
    added lines, which are lines 11 and 13 of the new revision. *)
Example parse_diff_hunk :
  ExtractShellInfo.map_entry
    (ExtractShellInfo.parse_diff "diff --git a/file.sh b/file.sh
index 1..2 100644
--- a/file.sh
+++ b/file.sh
@@ -1,3 +10,3 @@ fn
 ctx
-old
+new
 ctx2
+new2") "file.sh" = "file.sh:11,13" +:+ String Py.LF "".
Proof. vm_compute. reflexivity. Qed.

(** Group 1 of the file header is greedy. *)
Example git_diff_match_greedy :
  ExtractShellInfo.git_diff_match "diff --git a/x b/y b/z" = Some "x b/y".
Proof. reflexivity. Qed.

Example hunk_match_forms :
  ExtractShellInfo.hunk_match "@@ -1 +2 @@" = Some "2" /\
  ExtractShellInfo.hunk_match "@@ -1,3 +10,3 @@ main()" = Some "10" /\
  ExtractShellInfo.hunk_match "@@ -1,3 +10,3@@" = None.
Proof. repeat split; reflexivity. Qed.

Example int_forms :
  Py.int " -1_0 " = Some (-10) /\ Py.int "007" = Some 7 /\
  Py.int "1__0" = None /\ Py.int "" = None /\ Py.int "5a" = None.
Proof. repeat split; reflexivity. Qed.

(** One run of [run_shellcheck.py]: three findings and a trivial one, of
    which the two on the modified lines 5 and 7 are reported. *)
Example run_shellcheck_run :
  let linter_output :=
    "file.sh:5:1: warning: a [SC2086]
file.sh:6:1: warning: b [SC2086]
In file.sh line 1: [SC1071]
file.sh:7:3: note: c [SC2034]
" in
  let w := Sys.mkWorld {["shell_scripts.txt" := "file.sh";
                         "file.sh" := "echo $1";
                         "modified_lines_map.txt" := "file.sh:5,7"]} [] [] in
  let r := RunShellcheck.main (Some (fun _ _ => (linter_output, "")))
             ["run_shellcheck.py"; "shell_scripts.txt"; "modified_lines_map.txt"] w in
  Sys.exit_status r.1 = 0 /\
  Sys.stdout r.2 =
    ["Running ShellCheck on modified shell scripts with diff-aware filtering...";
     "Checking: file.sh";
     "  ✓ Issue on modified line 5: file.sh:5:1: warning: a [SC2086]";
     "  ⏭ Skipping issue on unmodified line 6";
     "  ✓ Issue on modified line 7: file.sh:7:3: note: c [SC2034]";
     "Found 2 non-trivial ShellCheck issue(s) on modified lines";
     "total_issues=2";
     "exit_code=1"] /\
  Sys.files r.2 !! "shellcheck_diff_filtered.txt" =
    Some "file.sh:5:1: warning: a [SC2086]
file.sh:7:3: note: c [SC2034]".
Proof. vm_compute. repeat split; reflexivity. Qed.
